(** * CoreAuth Python SDK: the HTTP transport, its error mapping and the
      service facades that assemble query mappings.

    The development embeds [coreauth/_http.py], [coreauth/exceptions.py],
    [coreauth/client.py] and the query-building methods of
    [coreauth/services/*.py] as Rocq functions, and proves the properties
    the specification states about them.

    Modelling choices.
    - Python values (what [resp.json()] returns, what goes into a request
      body or a query mapping) are the inductive [value]; a [dict] is a
      [gmap string value], so that equality is the one of Python dicts.
    - [httpx.Response] is an object of a library outside the repository.
      It is a record of the four observations the transport makes of it:
      [status_code], [content], [text] and the outcome of [json()]
      ([None] when [json()] raises).  No relation between the four is
      assumed.
    - The [httpx.Client] is the section variable [httpx_send]: given the
      requests sent so far and the request at hand, it answers with a
      response or raises [httpx.HTTPError].
    - The transport object is shared by the client and every service; it
      lives in the [world], together with the log of requests handed to
      httpx, and methods are computations in the monad [M]. *)

From stdpp Require Import base strings gmap list.
From Stdlib Require Import ZArith Ascii.

Set Warnings "-register-all".

(** ** Python values *)

(** A [float] is carried as its IEEE-754 binary64 bit pattern. *)
Inductive value : Type :=
  | VNone
  | VBool (b : bool)
  | VInt (n : Z)
  | VFloat (bits : Z)
  | VStr (s : string)
  | VList (l : list value)
  | VDict (d : gmap string value).

(** Embedding of typed Python arguments into [value]. *)
Class ToValue (A : Type) := to_value : A → value.
#[global] Instance value_to_value : ToValue value := fun v => v.
#[global] Instance string_to_value : ToValue string := VStr.
#[global] Instance Z_to_value : ToValue Z := VInt.
#[global] Instance bool_to_value : ToValue bool := VBool.
#[global] Instance dict_to_value : ToValue (gmap string value) := VDict.
#[global] Instance option_to_value `{ToValue A} : ToValue (option A) :=
  fun o => match o with Some a => to_value a | None => VNone end.

(** Python truth testing ([if x:], [not x], [x or y]) at the types where the
    source uses it. *)
Class Truthy (A : Type) := truthy : A → bool.
#[global] Instance string_truthy : Truthy string :=
  fun s => match s with EmptyString => false | String _ _ => true end.
#[global] Instance list_truthy {A} : Truthy (list A) :=
  fun l => match l with [] => false | _ :: _ => true end.
#[global] Instance dict_truthy {A} : Truthy (gmap string A) :=
  fun d => negb (Nat.eqb (size d) 0).
#[global] Instance option_truthy `{Truthy A} : Truthy (option A) :=
  fun o => match o with Some a => truthy a | None => false end.

(** [str.rstrip("/")]: every trailing slash goes. *)
Fixpoint rstrip_slash (s : string) : string :=
  match s with
  | EmptyString => EmptyString
  | String c rest =>
      match rstrip_slash rest with
      | EmptyString => if Ascii.eqb c "/"%char then EmptyString else String c EmptyString
      | rest' => String c rest'
      end
  end.

(** ** exceptions.py *)

Module exceptions.

(** The classes deriving from [CoreAuthError]. *)
Inductive error_class : Type :=
  | ApiErrorCls
  | AuthenticationErrorCls
  | ForbiddenErrorCls
  | NotFoundErrorCls
  | ConflictErrorCls
  | ValidationErrorCls
  | RateLimitErrorCls.

#[global] Instance error_class_eq_dec : EqDecision error_class.
Proof. solve_decision. Defined.

(** An instance of [ApiError] or of a subclass: its class and the three
    attributes [ApiError.__init__] sets.  The text handed on to
    [Exception.__init__] is a rendering of the same three attributes and
    is not kept. *)
Record ApiError : Type := mkApiError {
  cls : error_class;
  status_code : Z;
  error : value;
  message : value
}.

(** [ApiError.__init__(self, status_code, error="", message="")], run on
    an instance of class [self_cls].  An argument that is not passed is
    [None] and takes the default of the signature. *)
Definition ApiError__init__ (self_cls : error_class) (status_code : Z)
    (error message : option value) : ApiError :=
  {| cls := self_cls;
     status_code := status_code;
     error := default (VStr "") error;
     message := default (VStr "") message |}.

Definition ApiError_new (status_code : Z) (error message : option value) : ApiError :=
  ApiError__init__ ApiErrorCls status_code error message.

Definition AuthenticationError (error message : option value) : ApiError :=
  ApiError__init__ AuthenticationErrorCls 401
    (Some (default (VStr "unauthorized") error))
    (Some (default (VStr "Authentication required") message)).

Definition ForbiddenError (error message : option value) : ApiError :=
  ApiError__init__ ForbiddenErrorCls 403
    (Some (default (VStr "forbidden") error))
    (Some (default (VStr "Insufficient permissions") message)).

Definition NotFoundError (error message : option value) : ApiError :=
  ApiError__init__ NotFoundErrorCls 404
    (Some (default (VStr "not_found") error))
    (Some (default (VStr "Resource not found") message)).

Definition ConflictError (error message : option value) : ApiError :=
  ApiError__init__ ConflictErrorCls 409
    (Some (default (VStr "conflict") error))
    (Some (default (VStr "Resource already exists") message)).

Definition ValidationError (error message : option value) : ApiError :=
  ApiError__init__ ValidationErrorCls 400
    (Some (default (VStr "validation_error") error))
    (Some (default (VStr "Invalid request") message)).

Definition RateLimitError (error message : option value) : ApiError :=
  ApiError__init__ RateLimitErrorCls 429
    (Some (default (VStr "rate_limited") error))
    (Some (default (VStr "Rate limit exceeded") message)).

(** What a call of the SDK can raise. *)
Inductive exn : Type :=
  | ExnApiError (e : ApiError)
  | ExnCoreAuthError (msg : string)
  | ExnJSONDecodeError
  | ExnAttributeError.

End exceptions.

Import exceptions.

(** Outcome of a call: a returned value or a raised exception. *)
Inductive result (A : Type) : Type :=
  | Ok (a : A)
  | Raise (e : exn).
Arguments Ok {A} a.
Arguments Raise {A} e.

Definition result_bind {A B} (r : result A) (k : A → result B) : result B :=
  match r with Ok a => k a | Raise e => Raise e end.

(** ** httpx objects *)

Module httpx.

Record Response : Type := mkResponse {
  status_code : Z;
  content : list Byte.byte;
  text : string;
  json : option value
}.

Inductive http_method : Type := GET | POST | PUT | PATCH | DELETE.

(** A call [self._client.<method>(url, headers=, params=, json=, data=)];
    a keyword that is not passed is [None]. *)
Record Request : Type := mkRequest {
  method : http_method;
  url : string;
  headers : gmap string string;
  params : option (gmap string value);
  json_body : option value;
  data : option (gmap string value)
}.

Inductive send_result : Type :=
  | Responded (resp : Response)
  | HTTPError (reason : string).

End httpx.

(** ** _http.py: the transport *)

Module HttpClient.

(** The attributes of an [HttpClient] object other than the httpx client
    it wraps. *)
Record t : Type := mk {
  _base_url : string;
  _token : option string
}.

(** [HttpClient.__init__(self, base_url, token=None)]. *)
Definition __init__ (base_url : string) (token : option string) : t :=
  {| _base_url := rstrip_slash base_url; _token := token |}.

Definition set_token (self : t) (token : string) : t :=
  {| _base_url := _base_url self; _token := Some token |}.

Definition clear_token (self : t) : t :=
  {| _base_url := _base_url self; _token := None |}.

(** The two header builders share the test [if self._token:]. *)
Definition with_authorization (self : t) (headers : gmap string string)
    : gmap string string :=
  match _token self with
  | Some token =>
      if truthy token then <["Authorization" := "Bearer " +:+ token]> headers
      else headers
  | None => headers
  end.

Definition _headers (self : t) : gmap string string :=
  with_authorization self {["Content-Type" := "application/json"]}.

Definition _form_headers (self : t) : gmap string string :=
  with_authorization self {["Content-Type" := "application/x-www-form-urlencoded"]}.

(** [body.get(key, default)] on whatever [resp.json()] returned: only a
    dict has the method, any other value raises [AttributeError]. *)
Definition py_get (body : value) (key : string) (dflt : value) : result value :=
  match body with
  | VDict d => Ok (default dflt (d !! key))
  | _ => Raise ExnAttributeError
  end.

(** [resp.json()]. *)
Definition resp_json (resp : httpx.Response) : result value :=
  match httpx.json resp with
  | Some v => Ok v
  | None => Raise ExnJSONDecodeError
  end.

(** The [try: ... except Exception: ...] block of [_handle_response]:
    the pair [(error, message)]. *)
Definition error_fields (resp : httpx.Response) : value * value :=
  let attempt :=
    result_bind (resp_json resp) (fun body =>
    result_bind (py_get body "error" (VStr "")) (fun error =>
    result_bind (py_get body "message" (VStr "")) (fun message =>
    Ok (error, message)))) in
  match attempt with
  | Ok em => em
  | Raise _ => (VStr "", VStr (httpx.text resp))
  end.

(** The dict [error_map]; a class is the function that builds its
    instances from the two positional arguments. *)
Definition error_map : gmap Z (option value → option value → ApiError) :=
  <[400%Z := ValidationError]>
  (<[401%Z := AuthenticationError]>
  (<[403%Z := ForbiddenError]>
  (<[404%Z := NotFoundError]>
  (<[409%Z := ConflictError]>
  (<[429%Z := RateLimitError]> ∅))))).

(** [HttpClient._handle_response].  [error_map.get(status, ApiError)]
    followed by the test [cls is ApiError] is the match on the lookup. *)
Definition _handle_response (resp : httpx.Response) : result value :=
  let status := httpx.status_code resp in
  if (status =? 204)%Z then Ok VNone
  else if ((200 <=? status) && (status <? 300))%Z then
    if negb (truthy (httpx.content resp)) then Ok VNone
    else resp_json resp
  else
    let '(error, message) := error_fields resp in
    match error_map !! status with
    | None => Raise (ExnApiError (ApiError_new status (Some error) (Some message)))
    | Some cls => Raise (ExnApiError (cls (Some error) (Some message)))
    end.

End HttpClient.

Import HttpClient.

(** ** The world a call runs in *)

(** The one [HttpClient] object the client and all services refer to, and
    the requests handed to httpx so far, oldest first. *)
Record world : Type := mkWorld {
  http : HttpClient.t;
  wire : list httpx.Request
}.

Definition M (A : Type) : Type := world → result A * world.

#[global] Instance M_ret : MRet M := fun A a w => (Ok a, w).
#[global] Instance M_bind : MBind M := fun A B k m w =>
  match m w with
  | (Ok a, w') => k a w'
  | (Raise e, w') => (Raise e, w')
  end.

Definition lift {A} (r : result A) : M A := fun w => (r, w).
Definition get_http : M HttpClient.t := fun w => (Ok (http w), w).
Definition put_http (h : HttpClient.t) : M unit :=
  fun w => (Ok tt, {| http := h; wire := wire w |}).

(** Python idioms of the service methods. *)

(** [if cond: d[key] = v]. *)
Definition setitem_if (cond : bool) (key : string) (v : value)
    (d : gmap string value) : gmap string value :=
  if cond then <[key := v]> d else d.

(** [x is not None]. *)
Definition is_not_None {A} (o : option A) : bool :=
  match o with Some _ => true | None => false end.

(** [d or None]. *)
Definition or_None (d : gmap string value) : option (gmap string value) :=
  if truthy d then Some d else None.

Section Sdk.

(** The wrapped [httpx.Client]: its answer to a request, given the
    requests it has already been handed. *)
Variable httpx_send : list httpx.Request → httpx.Request → httpx.send_result.

(** [urllib.parse.urlencode]. *)
Variable urlencode : gmap string value → string.

(** [try: resp = self._client.<method>(...) except httpx.HTTPError as e:
    raise CoreAuthError(f"Request failed: {e}")]. *)
Definition send (rq : httpx.Request) : M httpx.Response := fun w =>
  let w' := {| http := http w; wire := wire w ++ [rq] |} in
  match httpx_send (wire w) rq with
  | httpx.Responded resp => (Ok resp, w')
  | httpx.HTTPError reason =>
      (Raise (ExnCoreAuthError ("Request failed: " +:+ reason)), w')
  end.

Definition HttpClient_get (path : string) (params : option (gmap string value))
    : M value :=
  self ← get_http;
  let url := _base_url self +:+ path in
  resp ← send {| httpx.method := httpx.GET; httpx.url := url;
                 httpx.headers := _headers self; httpx.params := params;
                 httpx.json_body := None; httpx.data := None |};
  lift (_handle_response resp).

Definition HttpClient_post (path : string) (json : option value) : M value :=
  self ← get_http;
  let url := _base_url self +:+ path in
  resp ← send {| httpx.method := httpx.POST; httpx.url := url;
                 httpx.headers := _headers self; httpx.params := None;
                 httpx.json_body := json; httpx.data := None |};
  lift (_handle_response resp).

Definition HttpClient_post_form (path : string) (data : gmap string value)
    : M value :=
  self ← get_http;
  let url := _base_url self +:+ path in
  resp ← send {| httpx.method := httpx.POST; httpx.url := url;
                 httpx.headers := _form_headers self; httpx.params := None;
                 httpx.json_body := None; httpx.data := Some data |};
  lift (_handle_response resp).

Definition HttpClient_put (path : string) (json : option value) : M value :=
  self ← get_http;
  let url := _base_url self +:+ path in
  resp ← send {| httpx.method := httpx.PUT; httpx.url := url;
                 httpx.headers := _headers self; httpx.params := None;
                 httpx.json_body := json; httpx.data := None |};
  lift (_handle_response resp).

Definition HttpClient_patch (path : string) (json : option value) : M value :=
  self ← get_http;
  let url := _base_url self +:+ path in
  resp ← send {| httpx.method := httpx.PATCH; httpx.url := url;
                 httpx.headers := _headers self; httpx.params := None;
                 httpx.json_body := json; httpx.data := None |};
  lift (_handle_response resp).

Definition HttpClient_delete (path : string) (json : option value) : M value :=
  self ← get_http;
  let url := _base_url self +:+ path in
  resp ← send {| httpx.method := httpx.DELETE; httpx.url := url;
                 httpx.headers := _headers self; httpx.params := None;
                 httpx.json_body := json; httpx.data := None |};
  lift (_handle_response resp).

(** *** client.py *)

Definition CoreAuthClient_set_token (token : string) : M unit :=
  self ← get_http; put_http (HttpClient.set_token self token).

Definition CoreAuthClient_clear_token : M unit :=
  self ← get_http; put_http (HttpClient.clear_token self).

(** *** services/auth.py *)

Definition AuthService_login (tenant_id email password : string) : M value :=
  HttpClient_post "/api/auth/login"
    (Some (VDict {[ "tenant_id" := VStr tenant_id;
                    "email" := VStr email;
                    "password" := VStr password ]})).

Definition AuthService_create_login_flow_browser
    (organization_id request_id : option string) : M value :=
  let params : gmap string value := ∅ in
  let params := setitem_if (truthy organization_id) "organization_id"
                  (to_value organization_id) params in
  let params := setitem_if (truthy request_id) "request_id"
                  (to_value request_id) params in
  HttpClient_get "/self-service/login/browser" (or_None params).

Definition AuthService_create_login_flow_api
    (organization_id request_id : option string) : M value :=
  let params : gmap string value := ∅ in
  let params := setitem_if (truthy organization_id) "organization_id"
                  (to_value organization_id) params in
  let params := setitem_if (truthy request_id) "request_id"
                  (to_value request_id) params in
  HttpClient_get "/self-service/login/api" (or_None params).

Definition AuthService_create_registration_flow_browser
    (organization_id : option string) : M value :=
  let params : gmap string value := ∅ in
  let params := setitem_if (truthy organization_id) "organization_id"
                  (to_value organization_id) params in
  HttpClient_get "/self-service/registration/browser" (or_None params).

Definition AuthService_create_registration_flow_api
    (organization_id : option string) : M value :=
  let params : gmap string value := ∅ in
  let params := setitem_if (truthy organization_id) "organization_id"
                  (to_value organization_id) params in
  HttpClient_get "/self-service/registration/api" (or_None params).

(** *** services/oauth2.py *)

(** The dict [query] of [authorize]: the four named arguments, then
    [**params]; [response_type] and [scope] default to ["code"] and
    ["openid"]. *)
Definition OAuth2Service_authorize_query (client_id redirect_uri : string)
    (response_type scope : option string) (params : gmap string value)
    : gmap string value :=
  params ∪ {[ "client_id" := VStr client_id;
              "redirect_uri" := VStr redirect_uri;
              "response_type" := VStr (default "code" response_type);
              "scope" := VStr (default "openid" scope) ]}.

(** [authorize] sends nothing: it returns the URL to visit. *)
Definition OAuth2Service_authorize (client_id redirect_uri : string)
    (response_type scope : option string) (params : gmap string value)
    : M string :=
  self ← get_http;
  let query := OAuth2Service_authorize_query client_id redirect_uri
                 response_type scope params in
  let base_url := rstrip_slash (_base_url self) in
  mret (base_url +:+ "/authorize?" +:+ urlencode query).

Definition OAuth2Service_oidc_logout
    (id_token_hint post_logout_redirect_uri state : option string) : M value :=
  let params : gmap string value := ∅ in
  let params := setitem_if (truthy id_token_hint) "id_token_hint"
                  (to_value id_token_hint) params in
  let params := setitem_if (truthy post_logout_redirect_uri)
                  "post_logout_redirect_uri"
                  (to_value post_logout_redirect_uri) params in
  let params := setitem_if (truthy state) "state" (to_value state) params in
  HttpClient_get "/logout" (or_None params).

(** *** services/audit.py *)

Definition AuditService_query
    (tenant_id event_types user_id start_date end_date : option string)
    (limit offset : option Z) : M value :=
  let params : gmap string value := ∅ in
  let params := setitem_if (truthy tenant_id) "tenant_id"
                  (to_value tenant_id) params in
  let params := setitem_if (truthy event_types) "event_types"
                  (to_value event_types) params in
  let params := setitem_if (truthy user_id) "user_id"
                  (to_value user_id) params in
  let params := setitem_if (truthy start_date) "start_date"
                  (to_value start_date) params in
  let params := setitem_if (truthy end_date) "end_date"
                  (to_value end_date) params in
  let params := setitem_if (is_not_None limit) "limit"
                  (to_value limit) params in
  let params := setitem_if (is_not_None offset) "offset"
                  (to_value offset) params in
  HttpClient_get "/api/audit/logs" (or_None params).

(** *** services/fga.py *)

Definition FgaService_list_stores (include_inactive : option bool) : M value :=
  let params : gmap string value := ∅ in
  let params := setitem_if (is_not_None include_inactive) "include_inactive"
                  (to_value include_inactive) params in
  HttpClient_get "/api/fga/stores" (or_None params).

Definition FgaService_read_store_tuples (store_id : string)
    (params : gmap string value) : M value :=
  HttpClient_get ("/api/fga/stores/" +:+ store_id +:+ "/tuples") (or_None params).

(** *** services/webhooks.py *)

Definition WebhooksService_list_deliveries (org_id webhook_id : string)
    (params : gmap string value) : M value :=
  HttpClient_get ("/api/organizations/" +:+ org_id +:+ "/webhooks/"
                    +:+ webhook_id +:+ "/deliveries") (or_None params).

(** *** services/scim.py *)

Definition ScimService_list_users (filter : option string)
    (count start_index : option Z) (params : gmap string value) : M value :=
  let p : gmap string value := params in
  let p := setitem_if (truthy filter) "filter" (to_value filter) p in
  let p := setitem_if (is_not_None count) "count" (to_value count) p in
  let p := setitem_if (is_not_None start_index) "startIndex"
             (to_value start_index) p in
  HttpClient_get "/scim/v2/Users" (or_None p).

Definition ScimService_list_scim_groups (filter : option string)
    (count start_index : option Z) (params : gmap string value) : M value :=
  let p : gmap string value := params in
  let p := setitem_if (truthy filter) "filter" (to_value filter) p in
  let p := setitem_if (is_not_None count) "count" (to_value count) p in
  let p := setitem_if (is_not_None start_index) "startIndex"
             (to_value start_index) p in
  HttpClient_get "/scim/v2/Groups" (or_None p).

Definition ScimService_list_sessions (user_id : option string) : M value :=
  let params : gmap string value := ∅ in
  let params := setitem_if (truthy user_id) "user_id"
                  (to_value user_id) params in
  HttpClient_get "/api/sessions" (or_None params).

(** ** Calls as data *)

(** The six request methods of the transport. *)
Inductive transport_call : Type :=
  | CallGet (path : string) (params : option (gmap string value))
  | CallPost (path : string) (json : option value)
  | CallPostForm (path : string) (data : gmap string value)
  | CallPut (path : string) (json : option value)
  | CallPatch (path : string) (json : option value)
  | CallDelete (path : string) (json : option value).

Definition run_transport_call (c : transport_call) : M value :=
  match c with
  | CallGet path params => HttpClient_get path params
  | CallPost path json => HttpClient_post path json
  | CallPostForm path data => HttpClient_post_form path data
  | CallPut path json => HttpClient_put path json
  | CallPatch path json => HttpClient_patch path json
  | CallDelete path json => HttpClient_delete path json
  end.

(** The service methods that hand a query mapping built from optional
    arguments to [HttpClient.get]: every method of [services/*.py] whose
    call of [get] passes [params=... or None]. *)
Inductive query_call : Type :=
  | Auth_create_login_flow_browser (organization_id request_id : option string)
  | Auth_create_login_flow_api (organization_id request_id : option string)
  | Auth_create_registration_flow_browser (organization_id : option string)
  | Auth_create_registration_flow_api (organization_id : option string)
  | OAuth2_oidc_logout
      (id_token_hint post_logout_redirect_uri state : option string)
  | Audit_query
      (tenant_id event_types user_id start_date end_date : option string)
      (limit offset : option Z)
  | Fga_list_stores (include_inactive : option bool)
  | Fga_read_store_tuples (store_id : string) (params : gmap string value)
  | Webhooks_list_deliveries (org_id webhook_id : string)
      (params : gmap string value)
  | Scim_list_users (filter : option string) (count start_index : option Z)
      (params : gmap string value)
  | Scim_list_scim_groups (filter : option string)
      (count start_index : option Z) (params : gmap string value)
  | Scim_list_sessions (user_id : option string).

Definition run_query_call (c : query_call) : M value :=
  match c with
  | Auth_create_login_flow_browser o r => AuthService_create_login_flow_browser o r
  | Auth_create_login_flow_api o r => AuthService_create_login_flow_api o r
  | Auth_create_registration_flow_browser o =>
      AuthService_create_registration_flow_browser o
  | Auth_create_registration_flow_api o =>
      AuthService_create_registration_flow_api o
  | OAuth2_oidc_logout i p s => OAuth2Service_oidc_logout i p s
  | Audit_query t e u s d l o => AuditService_query t e u s d l o
  | Fga_list_stores i => FgaService_list_stores i
  | Fga_read_store_tuples s p => FgaService_read_store_tuples s p
  | Webhooks_list_deliveries o w p => WebhooksService_list_deliveries o w p
  | Scim_list_users f c s p => ScimService_list_users f c s p
  | Scim_list_scim_groups f c s p => ScimService_list_scim_groups f c s p
  | Scim_list_sessions u => ScimService_list_sessions u
  end.

End Sdk.

(** The query key an optional argument stands for, when it is supplied. *)
Definition given {A} (key : string) (arg : option A) : gset string :=
  match arg with Some _ => {[ key ]} | None => ∅ end.

(** The query keys whose argument the caller supplied: the named optional
    arguments that are not [None], and the keys of the keyword bag. *)
Definition supplied_keys (c : query_call) : gset string :=
  match c with
  | Auth_create_login_flow_browser o r
  | Auth_create_login_flow_api o r =>
      given "organization_id" o ∪ given "request_id" r
  | Auth_create_registration_flow_browser o
  | Auth_create_registration_flow_api o => given "organization_id" o
  | OAuth2_oidc_logout i p s =>
      given "id_token_hint" i ∪ given "post_logout_redirect_uri" p
        ∪ given "state" s
  | Audit_query t e u s d l o =>
      given "tenant_id" t ∪ given "event_types" e ∪ given "user_id" u
        ∪ given "start_date" s ∪ given "end_date" d
        ∪ given "limit" l ∪ given "offset" o
  | Fga_list_stores i => given "include_inactive" i
  | Fga_read_store_tuples _ p => dom p
  | Webhooks_list_deliveries _ _ p => dom p
  | Scim_list_users f c s p
  | Scim_list_scim_groups f c s p =>
      given "filter" f ∪ given "count" c ∪ given "startIndex" s ∪ dom p
  | Scim_list_sessions u => given "user_id" u
  end.


(** ** The status table of the specification *)

(** Status, error kind, default error code, default message. *)
Definition status_table : list (Z * error_class * string * string) :=
  [ (400%Z, ValidationErrorCls, "validation_error", "Invalid request");
    (401%Z, AuthenticationErrorCls, "unauthorized", "Authentication required");
    (403%Z, ForbiddenErrorCls, "forbidden", "Insufficient permissions");
    (404%Z, NotFoundErrorCls, "not_found", "Resource not found");
    (409%Z, ConflictErrorCls, "conflict", "Resource already exists");
    (429%Z, RateLimitErrorCls, "rate_limited", "Rate limit exceeded") ].

(** The statuses with an entry in the table. *)
Definition mapped_statuses : list Z := [400; 401; 403; 404; 409; 429]%Z.

Definition is_2xx (status : Z) : Prop := (200 ≤ status < 300)%Z.

(** A decoded body has no member [key]: it is an object without the key, or
    no object at all. *)
Definition lacks_key (body : value) (key : string) : Prop :=
  match body with
  | VDict d => d !! key = None
  | _ => True
  end.

(** ** Sample responses, servers and worlds *)

Definition dquote : string := String (ascii_of_nat 34) EmptyString.

(** A response whose bytes and text are [txt] and whose [json()] gives
    [decoded]. *)
Definition response_of_text (status : Z) (txt : string) (decoded : option value)
    : httpx.Response :=
  {| httpx.status_code := status;
     httpx.content := String.list_byte_of_string txt;
     httpx.text := txt;
     httpx.json := decoded |}.

Definition text_a1 : string := "{" +:+ dquote +:+ "a" +:+ dquote +:+ ":1}".
Definition dict_a1 : value := VDict {[ "a" := VInt 1 ]}.

Definition text_xy : string :=
  "{" +:+ dquote +:+ "error" +:+ dquote +:+ ":" +:+ dquote +:+ "x" +:+ dquote
    +:+ "," +:+ dquote +:+ "message" +:+ dquote +:+ ":" +:+ dquote +:+ "y"
    +:+ dquote +:+ "}".
Definition dict_xy : gmap string value :=
  {[ "error" := VStr "x"; "message" := VStr "y" ]}.

Definition text_token : string :=
  "{" +:+ dquote +:+ "access_token" +:+ dquote +:+ ":" +:+ dquote +:+ "A"
    +:+ dquote +:+ "," +:+ dquote +:+ "refresh_token" +:+ dquote +:+ ":"
    +:+ dquote +:+ "R" +:+ dquote +:+ "," +:+ dquote +:+ "token_type" +:+ dquote
    +:+ ":" +:+ dquote +:+ "Bearer" +:+ dquote +:+ "," +:+ dquote
    +:+ "expires_in" +:+ dquote +:+ ":3600}".
Definition dict_token : value :=
  VDict {[ "access_token" := VStr "A"; "refresh_token" := VStr "R";
           "token_type" := VStr "Bearer"; "expires_in" := VInt 3600 ]}.

Definition resp_200_a1 : httpx.Response :=
  response_of_text 200 text_a1 (Some dict_a1).
Definition resp_204_a1 : httpx.Response :=
  response_of_text 204 text_a1 (Some dict_a1).
Definition resp_200_empty : httpx.Response :=
  response_of_text 200 "" None.
Definition resp_200_garbage : httpx.Response :=
  response_of_text 200 "oops" None.
Definition resp_200_token : httpx.Response :=
  response_of_text 200 text_token (Some dict_token).
Definition resp_with_xy (status : Z) : httpx.Response :=
  response_of_text status text_xy (Some (VDict dict_xy)).
Definition resp_404_html : httpx.Response :=
  response_of_text 404 "<h1>Not Found</h1>" None.
Definition resp_502_html : httpx.Response :=
  response_of_text 502 "Bad Gateway" None.
Definition resp_401_empty_object : httpx.Response :=
  response_of_text 401 "{}" (Some (VDict ∅)).
Definition resp_401_array : httpx.Response :=
  response_of_text 401 "[]" (Some (VList [])).

(** A server that answers every request with the same response. *)
Definition constant_server (resp : httpx.Response)
    : list httpx.Request → httpx.Request → httpx.send_result :=
  fun _ _ => httpx.Responded resp.

(** A freshly built client: [CoreAuthClient(base_url, token)]. *)
Definition new_world (base_url : string) (token : option string) : world :=
  {| http := HttpClient.__init__ base_url token; wire := [] |}.

Definition sample_world : world := new_world "http://localhost:3000/" None.

(** Running a computation: its outcome, and the requests it added. *)
Definition outcome {A} (m : M A) (w : world) : result A := fst (m w).
Definition after {A} (m : M A) (w : world) : world := snd (m w).

(** ** Statements under test *)

(** The [Authorization] header of a request. *)
Definition authorization (rq : httpx.Request) : option string :=
  httpx.headers rq !! "Authorization".

(** The requests a computation hands to httpx when run in [w]. *)
Definition sent {A} (m : M A) (w : world) : list httpx.Request :=
  drop (length (wire w)) (wire (after m w)).

(** For a decoded error body, each missing field arrives as the empty
    string. *)
Definition missing_fields_are_empty (resp : httpx.Response) : Prop :=
  ∀ v : value, httpx.json resp = Some v →
    ∃ e : ApiError,
      _handle_response resp = Raise (ExnApiError e) ∧
      (lacks_key v "error" → error e = VStr "") ∧
      (lacks_key v "message" → message e = VStr "").

(** After [set_token(t)], the next request carries [Bearer t]. *)
Definition set_token_gives_bearer
    (httpx_send : list httpx.Request → httpx.Request → httpx.send_result)
    (t : string) (c : transport_call) (w : world) : Prop :=
  authorization <$> sent (CoreAuthClient_set_token t ≫=
                            λ _, run_transport_call httpx_send c) w
    = [Some ("Bearer " +:+ t)].

(** An optional argument that is not supplied leaves no key in the query. *)
Definition unsupplied_is_absent {A} (query : gmap string value) (key : string)
    (arg : option A) : Prop :=
  arg = None → query !! key = None.

(** A computation that hands exactly the request [rq] to httpx, leaves the
    transport object alone and returns what [_handle_response] makes of
    the answer. *)
Definition sends_exactly
    (httpx_send : list httpx.Request → httpx.Request → httpx.send_result)
    (m : M value) (w : world) (rq : httpx.Request) : Prop :=
  after m w = {| http := http w; wire := wire w ++ [rq] |} ∧
  outcome m w =
    match httpx_send (wire w) rq with
    | httpx.Responded resp => _handle_response resp
    | httpx.HTTPError reason => Raise (ExnCoreAuthError ("Request failed: " +:+ reason))
    end.

(** ** Further methods of the services *)

Section MoreServices.

Variable httpx_send : list httpx.Request → httpx.Request → httpx.send_result.

(** *** services/auth.py *)

Definition AuthService_register (tenant_id email password : string)
    (phone : option string) : M value :=
  let body : gmap string value :=
    {[ "tenant_id" := VStr tenant_id; "email" := VStr email;
       "password" := VStr password ]} in
  let body := setitem_if (truthy phone) "phone" (to_value phone) body in
  HttpClient_post httpx_send "/api/auth/register" (Some (VDict body)).

Definition AuthService_login_hierarchical (email password : string)
    (organization_slug : option string) : M value :=
  let body : gmap string value :=
    {[ "email" := VStr email; "password" := VStr password ]} in
  let body := setitem_if (truthy organization_slug) "organization_slug"
                (to_value organization_slug) body in
  HttpClient_post httpx_send "/api/auth/login-hierarchical" (Some (VDict body)).

Definition AuthService_refresh_token (refresh_token : string) : M value :=
  HttpClient_post httpx_send "/api/auth/refresh"
    (Some (VDict {[ "refresh_token" := VStr refresh_token ]})).

(** [logout] drops what [post] returns: the method returns [None]. *)
Definition AuthService_logout : M value :=
  HttpClient_post httpx_send "/api/auth/logout" None ≫= λ _, mret VNone.

Definition AuthService_get_profile : M value :=
  HttpClient_get httpx_send "/api/auth/me" None.

(** [{"flow": flow_id, **kwargs}]: an entry of [kwargs] replaces an
    earlier entry with the same key. *)
Definition AuthService_submit_login_flow (flow_id : string)
    (kwargs : gmap string value) : M value :=
  HttpClient_post httpx_send "/self-service/login"
    (Some (VDict (kwargs ∪ {[ "flow" := VStr flow_id ]}))).

Definition AuthService_submit_registration_flow (flow_id : string)
    (kwargs : gmap string value) : M value :=
  HttpClient_post httpx_send "/self-service/registration"
    (Some (VDict (kwargs ∪ {[ "flow" := VStr flow_id ]}))).

(** *** services/oauth2.py *)

Definition OAuth2Service_token (grant_type : string)
    (kwargs : gmap string value) : M value :=
  let data : gmap string value := kwargs ∪ {[ "grant_type" := VStr grant_type ]} in
  HttpClient_post_form httpx_send "/oauth/token" data.

Definition OAuth2Service_revoke (token : string)
    (token_type_hint : option string) : M value :=
  let data : gmap string value := {[ "token" := VStr token ]} in
  let data := setitem_if (truthy token_type_hint) "token_type_hint"
                (to_value token_type_hint) data in
  HttpClient_post_form httpx_send "/oauth/revoke" data.

Definition OAuth2Service_introspect (token : string)
    (token_type_hint : option string) : M value :=
  let data : gmap string value := {[ "token" := VStr token ]} in
  let data := setitem_if (truthy token_type_hint) "token_type_hint"
                (to_value token_type_hint) data in
  HttpClient_post_form httpx_send "/oauth/introspect" data.

(** *** Callers *)


End MoreServices.

(** The two operations on the credential that [CoreAuthClient] offers. *)
Inductive token_op : Type :=
  | OpSetToken (token : string)
  | OpClearToken.

Definition run_token_op (op : token_op) : M unit :=
  match op with
  | OpSetToken token => CoreAuthClient_set_token token
  | OpClearToken => CoreAuthClient_clear_token
  end.

Fixpoint run_token_ops (ops : list token_op) : M unit :=
  match ops with
  | [] => mret tt
  | op :: ops' => run_token_op op ≫= λ _, run_token_ops ops'
  end.



Definition call_is_form (c : transport_call) : bool :=
  match c with CallPostForm _ _ => true | _ => false end.

(** [n] slashes. *)
Fixpoint slashes (n : nat) : string :=
  match n with
  | O => EmptyString
  | S n' => String "/"%char (slashes n')
  end.

(** [s.endswith("/")]. *)
Fixpoint ends_with_slash (s : string) : bool :=
  match s with
  | EmptyString => false
  | String c EmptyString => Ascii.eqb c "/"%char
  | String _ rest => ends_with_slash rest
  end.


(** ** Service methods whose body has one optional field *)

Section BodyServices.

Variable httpx_send : list httpx.Request → httpx.Request → httpx.send_result.

(** *** services/scim.py *)

Definition ScimService_create_scim_token (org_id name : string)
    (expires_at : option string) : M value :=
  let body : gmap string value := {[ "name" := VStr name ]} in
  let body := setitem_if (truthy expires_at) "expires_at"
                (to_value expires_at) body in
  HttpClient_post httpx_send ("/api/organizations/" +:+ org_id +:+ "/scim/tokens")
    (Some (VDict body)).

(** *** services/fga.py *)

Definition FgaService_create_tuple
    (tenant_id namespace object_id relation subject_type subject_id : string)
    (subject_relation : option string) : M value :=
  let body : gmap string value :=
    {[ "tenant_id" := VStr tenant_id; "namespace" := VStr namespace;
       "object_id" := VStr object_id; "relation" := VStr relation;
       "subject_type" := VStr subject_type; "subject_id" := VStr subject_id ]} in
  let body := setitem_if (truthy subject_relation) "subject_relation"
                (to_value subject_relation) body in
  HttpClient_post httpx_send "/api/authz/tuples" (Some (VDict body)).

Definition FgaService_check
    (tenant_id subject_type subject_id relation namespace object_id : string)
    (context : option (gmap string value)) : M value :=
  let body : gmap string value :=
    {[ "tenant_id" := VStr tenant_id; "subject_type" := VStr subject_type;
       "subject_id" := VStr subject_id; "relation" := VStr relation;
       "namespace" := VStr namespace; "object_id" := VStr object_id ]} in
  let body := setitem_if (truthy context) "context" (to_value context) body in
  HttpClient_post httpx_send "/api/authz/check" (Some (VDict body)).

Definition FgaService_create_store (name : string) (description : option string)
    : M value :=
  let body : gmap string value := {[ "name" := VStr name ]} in
  let body := setitem_if (truthy description) "description"
                (to_value description) body in
  HttpClient_post httpx_send "/api/fga/stores" (Some (VDict body)).

Definition FgaService_write_model (store_id : string) (schema : value)
    (created_by : option string) : M value :=
  let body : gmap string value := {[ "schema" := schema ]} in
  let body := setitem_if (truthy created_by) "created_by"
                (to_value created_by) body in
  HttpClient_post httpx_send ("/api/fga/stores/" +:+ store_id +:+ "/models")
    (Some (VDict body)).

(** *** services/groups.py *)

Definition GroupsService_add_member (tenant_id group_id user_id : string)
    (role : option string) : M value :=
  let body : gmap string value := {[ "user_id" := VStr user_id ]} in
  let body := setitem_if (truthy role) "role" (to_value role) body in
  HttpClient_post httpx_send
    ("/api/tenants/" +:+ tenant_id +:+ "/groups/" +:+ group_id +:+ "/members")
    (Some (VDict body)).

Definition GroupsService_accept_invitation (token password full_name : string)
    (metadata : option (gmap string value)) : M value :=
  let body : gmap string value :=
    {[ "token" := VStr token; "password" := VStr password;
       "full_name" := VStr full_name ]} in
  let body := setitem_if (truthy metadata) "metadata" (to_value metadata) body in
  HttpClient_post httpx_send "/api/invitations/accept" (Some (VDict body)).

(** *** services/admin.py *)

Definition AdminService_create_tenant (slug name : string)
    (isolation_mode : option string) : M value :=
  let body : gmap string value := {[ "slug" := VStr slug; "name" := VStr name ]} in
  let body := setitem_if (truthy isolation_mode) "isolation_mode"
                (to_value isolation_mode) body in
  HttpClient_post httpx_send "/api/admin/tenants" (Some (VDict body)).

(** *** services/webhooks.py *)

(** [test] passes [json=body or None]. *)
Definition WebhooksService_test (org_id webhook_id : string)
    (event_type : option string) : M value :=
  let body : gmap string value := ∅ in
  let body := setitem_if (truthy event_type) "event_type"
                (to_value event_type) body in
  HttpClient_post httpx_send
    ("/api/organizations/" +:+ org_id +:+ "/webhooks/" +:+ webhook_id +:+ "/test")
    (VDict <$> or_None body).

(** The service methods that post a body with one field set under
    [if x:]. *)
Inductive body_call : Type :=
  | Auth_register (tenant_id email password : string) (phone : option string)
  | Auth_login_hierarchical (email password : string)
      (organization_slug : option string)
  | Scim_create_scim_token (org_id name : string) (expires_at : option string)
  | Fga_create_tuple
      (tenant_id namespace object_id relation subject_type subject_id : string)
      (subject_relation : option string)
  | Fga_check
      (tenant_id subject_type subject_id relation namespace object_id : string)
      (context : option (gmap string value))
  | Fga_create_store (name : string) (description : option string)
  | Fga_write_model (store_id : string) (schema : value)
      (created_by : option string)
  | Groups_add_member (tenant_id group_id user_id : string) (role : option string)
  | Groups_accept_invitation (token password full_name : string)
      (metadata : option (gmap string value))
  | Admin_create_tenant (slug name : string) (isolation_mode : option string)
  | Webhooks_test (org_id webhook_id : string) (event_type : option string).

Definition run_body_call (c : body_call) : M value :=
  match c with
  | Auth_register t e p ph => AuthService_register httpx_send t e p ph
  | Auth_login_hierarchical e p o => AuthService_login_hierarchical httpx_send e p o
  | Scim_create_scim_token o n e => ScimService_create_scim_token o n e
  | Fga_create_tuple t n o r st si sr => FgaService_create_tuple t n o r st si sr
  | Fga_check t st si r n o c => FgaService_check t st si r n o c
  | Fga_create_store n d => FgaService_create_store n d
  | Fga_write_model s sc c => FgaService_write_model s sc c
  | Groups_add_member t g u r => GroupsService_add_member t g u r
  | Groups_accept_invitation t p f m => GroupsService_accept_invitation t p f m
  | Admin_create_tenant s n i => AdminService_create_tenant s n i
  | Webhooks_test o w e => WebhooksService_test o w e
  end.

(** The methods of [AuthService] around a session. *)
Inductive auth_call : Type :=
  | AuthLogin (tenant_id email password : string)
  | AuthRegister (tenant_id email password : string) (phone : option string)
  | AuthLoginHierarchical (email password : string)
      (organization_slug : option string)
  | AuthRefreshToken (refresh_token : string)
  | AuthLogout
  | AuthGetProfile.

Definition run_auth_call (c : auth_call) : M value :=
  match c with
  | AuthLogin t e p => AuthService_login httpx_send t e p
  | AuthRegister t e p ph => AuthService_register httpx_send t e p ph
  | AuthLoginHierarchical e p o => AuthService_login_hierarchical httpx_send e p o
  | AuthRefreshToken r => AuthService_refresh_token httpx_send r
  | AuthLogout => AuthService_logout httpx_send
  | AuthGetProfile => AuthService_get_profile httpx_send
  end.

End BodyServices.

(** Path, optional key and fixed fields of a [body_call]. *)
Definition body_path (c : body_call) : string :=
  match c with
  | Auth_register _ _ _ _ => "/api/auth/register"
  | Auth_login_hierarchical _ _ _ => "/api/auth/login-hierarchical"
  | Scim_create_scim_token org_id _ _ =>
      "/api/organizations/" +:+ org_id +:+ "/scim/tokens"
  | Fga_create_tuple _ _ _ _ _ _ _ => "/api/authz/tuples"
  | Fga_check _ _ _ _ _ _ _ => "/api/authz/check"
  | Fga_create_store _ _ => "/api/fga/stores"
  | Fga_write_model store_id _ _ => "/api/fga/stores/" +:+ store_id +:+ "/models"
  | Groups_add_member tenant_id group_id _ _ =>
      "/api/tenants/" +:+ tenant_id +:+ "/groups/" +:+ group_id +:+ "/members"
  | Groups_accept_invitation _ _ _ _ => "/api/invitations/accept"
  | Admin_create_tenant _ _ _ => "/api/admin/tenants"
  | Webhooks_test org_id webhook_id _ =>
      "/api/organizations/" +:+ org_id +:+ "/webhooks/" +:+ webhook_id +:+ "/test"
  end.

Definition optional_key (c : body_call) : string :=
  match c with
  | Auth_register _ _ _ _ => "phone"
  | Auth_login_hierarchical _ _ _ => "organization_slug"
  | Scim_create_scim_token _ _ _ => "expires_at"
  | Fga_create_tuple _ _ _ _ _ _ _ => "subject_relation"
  | Fga_check _ _ _ _ _ _ _ => "context"
  | Fga_create_store _ _ => "description"
  | Fga_write_model _ _ _ => "created_by"
  | Groups_add_member _ _ _ _ => "role"
  | Groups_accept_invitation _ _ _ _ => "metadata"
  | Admin_create_tenant _ _ _ => "isolation_mode"
  | Webhooks_test _ _ _ => "event_type"
  end.

(** The optional argument as the caller gave it. *)
Definition optional_arg (c : body_call) : option value :=
  match c with
  | Auth_register _ _ _ o | Auth_login_hierarchical _ _ o
  | Scim_create_scim_token _ _ o | Fga_create_tuple _ _ _ _ _ _ o
  | Fga_create_store _ o | Fga_write_model _ _ o | Groups_add_member _ _ _ o
  | Admin_create_tenant _ _ o | Webhooks_test _ _ o => VStr <$> o
  | Fga_check _ _ _ _ _ _ o | Groups_accept_invitation _ _ _ o => VDict <$> o
  end.

(** Not given, or given as the empty string or the empty dict. *)
Definition optional_is_empty (c : body_call) : Prop :=
  optional_arg c = None ∨ optional_arg c = Some (VStr "")
  ∨ optional_arg c = Some (VDict ∅).

(** The fields every call of the method sends. *)
Definition required_fields (c : body_call) : gmap string value :=
  match c with
  | Auth_register tenant_id email password _ =>
      {[ "tenant_id" := VStr tenant_id; "email" := VStr email;
         "password" := VStr password ]}
  | Auth_login_hierarchical email password _ =>
      {[ "email" := VStr email; "password" := VStr password ]}
  | Scim_create_scim_token _ name _ => {[ "name" := VStr name ]}
  | Fga_create_tuple tenant_id namespace object_id relation subject_type subject_id _ =>
      {[ "tenant_id" := VStr tenant_id; "namespace" := VStr namespace;
         "object_id" := VStr object_id; "relation" := VStr relation;
         "subject_type" := VStr subject_type; "subject_id" := VStr subject_id ]}
  | Fga_check tenant_id subject_type subject_id relation namespace object_id _ =>
      {[ "tenant_id" := VStr tenant_id; "subject_type" := VStr subject_type;
         "subject_id" := VStr subject_id; "relation" := VStr relation;
         "namespace" := VStr namespace; "object_id" := VStr object_id ]}
  | Fga_create_store name _ => {[ "name" := VStr name ]}
  | Fga_write_model _ schema _ => {[ "schema" := schema ]}
  | Groups_add_member _ _ user_id _ => {[ "user_id" := VStr user_id ]}
  | Groups_accept_invitation token password full_name _ =>
      {[ "token" := VStr token; "password" := VStr password;
         "full_name" := VStr full_name ]}
  | Admin_create_tenant slug name _ => {[ "slug" := VStr slug; "name" := VStr name ]}
  | Webhooks_test _ _ _ => ∅
  end.

(** A string argument that is given and not empty. *)
Definition nonempty (o : option string) : option value :=
  match o with
  | Some (String a s) => Some (VStr (String a s))
  | _ => None
  end.

(** The credential after a list of token operations. *)
Definition last_token (ops : list token_op) (before : option string)
    : option string :=
  match last ops with
  | None => before
  | Some (OpSetToken token) => Some token
  | Some OpClearToken => None
  end.

(** * Properties *)

(** ** The error map *)

Lemma error_map_lookup_Some (status : Z) (c : option value → option value → ApiError) :
  error_map !! status = Some c →
  (status = 400%Z ∧ c = ValidationError) ∨
  (status = 401%Z ∧ c = AuthenticationError) ∨
  (status = 403%Z ∧ c = ForbiddenError) ∨
  (status = 404%Z ∧ c = NotFoundError) ∨
  (status = 409%Z ∧ c = ConflictError) ∨
  (status = 429%Z ∧ c = RateLimitError).
Proof.
  unfold error_map. intros H.
  repeat (apply lookup_insert_Some in H as [[<- <-] | [_ H]]; [tauto |]).
  by rewrite lookup_empty in H.
Qed.

Lemma error_map_lookup_None (status : Z) :
  status ∉ mapped_statuses → error_map !! status = None.
Proof.
  unfold mapped_statuses, error_map. intros H.
  repeat (apply not_elem_of_cons in H as [? H]).
  by rewrite !lookup_insert_ne, lookup_empty.
Qed.

Lemma error_map_lookup_table status kind de dm :
  (status, kind, de, dm) ∈ status_table →
  ∃ c, error_map !! status = Some c ∧
       ∀ e m, c (Some e) (Some m) = mkApiError kind status e m.
Proof.
  unfold status_table. intros H.
  repeat (apply elem_of_cons in H as [[= -> -> -> ->] | H];
          [eexists; split; [reflexivity | done] |]).
  by apply elem_of_nil in H.
Qed.

(** Every class of the map stores the two arguments it is called with. *)
Lemma error_map_passthrough status c e m :
  error_map !! status = Some c →
  exceptions.status_code (c (Some e) (Some m)) = status ∧
  error (c (Some e) (Some m)) = e ∧ message (c (Some e) (Some m)) = m.
Proof.
  intros H. apply error_map_lookup_Some in H.
  destruct H as [[-> ->] | [[-> ->] | [[-> ->] | [[-> ->] | [[-> ->] | [-> ->]]]]]];
    done.
Qed.

(** ** The branches of [_handle_response] *)

Lemma status_not_2xx_tests (status : Z) :
  ¬ is_2xx status →
  (status =? 204)%Z = false ∧ ((200 <=? status) && (status <? 300))%Z = false.
Proof.
  unfold is_2xx. intros H. split.
  - apply Z.eqb_neq. lia.
  - apply andb_false_iff.
    destruct (Z.leb_spec 200 status); [right | by left].
    apply Z.ltb_ge. lia.
Qed.

Lemma handle_response_failure (resp : httpx.Response) :
  ¬ is_2xx (httpx.status_code resp) →
  _handle_response resp =
    let '(error, message) := error_fields resp in
    match error_map !! httpx.status_code resp with
    | None => Raise (ExnApiError
                (ApiError_new (httpx.status_code resp) (Some error) (Some message)))
    | Some cls => Raise (ExnApiError (cls (Some error) (Some message)))
    end.
Proof.
  intros H. apply status_not_2xx_tests in H as [H1 H2].
  unfold _handle_response. cbv zeta. by rewrite H1, H2.
Qed.

Lemma error_fields_dict (resp : httpx.Response) (d : gmap string value) :
  httpx.json resp = Some (VDict d) →
  error_fields resp =
    (default (VStr "") (d !! "error"), default (VStr "") (d !! "message")).
Proof. intros H. unfold error_fields, resp_json. by rewrite H. Qed.

Lemma error_fields_undecodable (resp : httpx.Response) :
  httpx.json resp = None →
  error_fields resp = (VStr "", VStr (httpx.text resp)).
Proof. intros H. unfold error_fields, resp_json. by rewrite H. Qed.

Lemma error_fields_not_dict (resp : httpx.Response) (v : value) :
  httpx.json resp = Some v → (∀ d, v ≠ VDict d) →
  error_fields resp = (VStr "", VStr (httpx.text resp)).
Proof.
  intros H Hv. unfold error_fields, resp_json. rewrite H.
  destruct v; try done. by destruct (Hv d).
Qed.

(** C8: each specific error-kind constructor, called without explicit
    values, carries the default error code and default message of the
    status table, and its fixed status code. *)
Theorem constructor_defaults :
  ValidationError None None
    = mkApiError ValidationErrorCls 400 (VStr "validation_error") (VStr "Invalid request") ∧
  AuthenticationError None None
    = mkApiError AuthenticationErrorCls 401 (VStr "unauthorized")
        (VStr "Authentication required") ∧
  ForbiddenError None None
    = mkApiError ForbiddenErrorCls 403 (VStr "forbidden") (VStr "Insufficient permissions") ∧
  NotFoundError None None
    = mkApiError NotFoundErrorCls 404 (VStr "not_found") (VStr "Resource not found") ∧
  ConflictError None None
    = mkApiError ConflictErrorCls 409 (VStr "conflict") (VStr "Resource already exists") ∧
  RateLimitError None None
    = mkApiError RateLimitErrorCls 429 (VStr "rate_limited") (VStr "Rate limit exceeded") ∧
  (∀ status kind de dm, (status, kind, de, dm) ∈ status_table →
     ∃ c, error_map !! status = Some c ∧
          c None None = mkApiError kind status (VStr de) (VStr dm)).
Proof.
  repeat split.
  unfold status_table. intros status kind de dm H.
  repeat (apply elem_of_cons in H as [[= -> -> -> ->] | H];
          [eexists; split; reflexivity |]).
  by apply elem_of_nil in H.
Qed.

Lemma constructor_defaults_witness :
  ∃ c, error_map !! 401%Z = Some c ∧
       c None None = mkApiError AuthenticationErrorCls 401 (VStr "unauthorized")
                       (VStr "Authentication required").
Proof.
  apply (proj2 (proj2 (proj2 (proj2 (proj2 (proj2 constructor_defaults)))))
           401%Z AuthenticationErrorCls "unauthorized" "Authentication required").
  unfold status_table. apply list_elem_of_further, list_elem_of_here.
Defined.

(** C1: for every status of the table and every body that decodes to an
    object with fields error = E and message = M, the response handler
    raises the error kind of that status, carrying exactly E and M. *)
Theorem handle_response_mapped_status :
  ∀ (status : Z) (kind : error_class) (de dm : string),
    (status, kind, de, dm) ∈ status_table →
    ∀ (resp : httpx.Response) (d : gmap string value) (E M : value),
      httpx.status_code resp = status →
      httpx.json resp = Some (VDict d) →
      d !! "error" = Some E →
      d !! "message" = Some M →
      _handle_response resp = Raise (ExnApiError (mkApiError kind status E M)).
Proof.
  intros status kind de dm Htab resp d E M Hs Hj HE HM.
  assert (¬ is_2xx (httpx.status_code resp)) as Hn.
  { rewrite Hs. unfold status_table in Htab. unfold is_2xx.
    repeat (apply elem_of_cons in Htab as [[= -> -> -> ->] | Htab]; [lia |]).
    by apply elem_of_nil in Htab. }
  rewrite (handle_response_failure _ Hn), (error_fields_dict _ _ Hj), HE, HM, Hs.
  destruct (error_map_lookup_table _ _ _ _ Htab) as (c & -> & Hc).
  simpl. by rewrite Hc.
Qed.

Lemma handle_response_mapped_status_witness :
  _handle_response (resp_with_xy 409)
    = Raise (ExnApiError (mkApiError ConflictErrorCls 409 (VStr "x") (VStr "y"))).
Proof.
  apply (handle_response_mapped_status 409 ConflictErrorCls "conflict"
           "Resource already exists") with (d := dict_xy).
  - unfold status_table. do 4 apply list_elem_of_further. apply list_elem_of_here.
  - reflexivity.
  - reflexivity.
  - vm_compute. reflexivity.
  - vm_compute. reflexivity.
Defined.

(** ** Success classification *)

Lemma status_2xx_test (status : Z) :
  is_2xx status → ((200 <=? status) && (status <? 300))%Z = true.
Proof.
  unfold is_2xx. intros [H1 H2]. apply andb_true_iff. split.
  - by apply Z.leb_le.
  - by apply Z.ltb_lt.
Qed.

(** A 2xx body that is not empty and does not decode is not a success: the
    decode error of [resp.json()] reaches the caller. *)
Lemma handle_response_2xx_undecodable (resp : httpx.Response) :
  is_2xx (httpx.status_code resp) →
  httpx.status_code resp ≠ 204%Z →
  httpx.content resp ≠ [] →
  httpx.json resp = None →
  _handle_response resp = Raise ExnJSONDecodeError.
Proof.
  intros H2 H204 Hc Hj. unfold _handle_response. cbv zeta.
  apply Z.eqb_neq in H204. rewrite H204, (status_2xx_test _ H2).
  destruct (httpx.content resp) as [|b bs]; [done |].
  simpl. unfold resp_json. by rewrite Hj.
Qed.

Lemma handle_response_json_body :
  (∀ resp : httpx.Response,
     httpx.status_code resp = 204%Z → _handle_response resp = Ok VNone) ∧
  (∀ resp : httpx.Response,
     is_2xx (httpx.status_code resp) → httpx.content resp = [] →
     _handle_response resp = Ok VNone) ∧
  (∀ (resp : httpx.Response) (v : value),
     is_2xx (httpx.status_code resp) → httpx.status_code resp ≠ 204%Z →
     httpx.content resp ≠ [] → httpx.json resp = Some v →
     _handle_response resp = Ok v).
Proof.
  split; [| split].
  - intros resp H. unfold _handle_response. cbv zeta. by rewrite H.
  - intros resp H2 Hc. unfold _handle_response. cbv zeta.
    destruct (httpx.status_code resp =? 204)%Z; [done |].
    by rewrite (status_2xx_test _ H2), Hc.
  - intros resp v H2 H204 Hc Hj. unfold _handle_response. cbv zeta.
    apply Z.eqb_neq in H204. rewrite H204, (status_2xx_test _ H2).
    destruct (httpx.content resp) as [|b bs]; [done |].
    simpl. unfold resp_json. by rewrite Hj.
Qed.

(** C2: status 204 gives success with no value whatever the body; a 2xx
    status with an empty body gives success with no value; any other 2xx
    response gives success with the decoded JSON body; status 200 with
    body {"a":1} gives the decoded object. *)
Theorem handle_response_success :
  (∀ resp : httpx.Response,
     httpx.status_code resp = 204%Z → _handle_response resp = Ok VNone) ∧
  (∀ resp : httpx.Response,
     is_2xx (httpx.status_code resp) → httpx.content resp = [] →
     _handle_response resp = Ok VNone) ∧
  (∀ (resp : httpx.Response) (v : value),
     is_2xx (httpx.status_code resp) → httpx.status_code resp ≠ 204%Z →
     httpx.content resp ≠ [] → httpx.json resp = Some v →
     _handle_response resp = Ok v) ∧
  _handle_response resp_200_a1 = Ok (VDict {[ "a" := VInt 1 ]}).
Proof.
  destruct handle_response_json_body as (H204 & Hempty & Hjson).
  split; [exact H204 |]. split; [exact Hempty |]. split; [exact Hjson |].
  reflexivity.
Qed.

Lemma handle_response_success_witness :
  _handle_response resp_204_a1 = Ok VNone ∧
  _handle_response resp_200_empty = Ok VNone ∧
  _handle_response resp_200_token = Ok dict_token.
Proof.
  destruct handle_response_success as (H204 & Hempty & Hjson & _).
  split; [| split].
  - apply H204. reflexivity.
  - apply Hempty; [unfold is_2xx; simpl; lia | reflexivity].
  - apply Hjson.
    + unfold is_2xx; simpl; lia.
    + simpl. discriminate.
    + vm_compute. discriminate.
    + reflexivity.
Defined.

(** ** Failure classification *)

(** C3: a response whose status is neither 2xx nor in the table raises the
    generic [ApiError] with the raw status code and the error and message
    read from the body (the fields of a JSON object, the empty string for
    a missing one; the empty code and the raw text for any other body);
    status 500 with body {error: x, message: y} raises
    [ApiError(500, x, y)]. *)
Theorem handle_response_unmapped_status :
  (∀ resp : httpx.Response,
     ¬ is_2xx (httpx.status_code resp) →
     httpx.status_code resp ∉ mapped_statuses →
     ∃ error message : value,
       _handle_response resp
         = Raise (ExnApiError
             (mkApiError ApiErrorCls (httpx.status_code resp) error message)) ∧
       (∀ d, httpx.json resp = Some (VDict d) →
             error = default (VStr "") (d !! "error") ∧
             message = default (VStr "") (d !! "message")) ∧
       (httpx.json resp = None →
             error = VStr "" ∧ message = VStr (httpx.text resp)) ∧
       (∀ v, httpx.json resp = Some v → (∀ d, v ≠ VDict d) →
             error = VStr "" ∧ message = VStr (httpx.text resp))) ∧
  _handle_response (resp_with_xy 500)
    = Raise (ExnApiError (mkApiError ApiErrorCls 500 (VStr "x") (VStr "y"))).
Proof.
  split; [| reflexivity].
  intros resp Hn Hu.
  rewrite (handle_response_failure _ Hn), (error_map_lookup_None _ Hu).
  destruct (error_fields resp) as [error message] eqn:Hf.
  exists error, message. split; [done |]. split; [| split].
  - intros d Hj. rewrite (error_fields_dict _ _ Hj) in Hf. by injection Hf as <- <-.
  - intros Hj. rewrite (error_fields_undecodable _ Hj) in Hf. by injection Hf as <- <-.
  - intros v Hj Hv. rewrite (error_fields_not_dict _ _ Hj Hv) in Hf.
    by injection Hf as <- <-.
Qed.

Lemma handle_response_unmapped_status_witness :
  ∃ error message : value,
    _handle_response resp_502_html
      = Raise (ExnApiError (mkApiError ApiErrorCls 502 error message)) ∧
    (∀ d, httpx.json resp_502_html = Some (VDict d) →
          error = default (VStr "") (d !! "error") ∧
          message = default (VStr "") (d !! "message")) ∧
    (httpx.json resp_502_html = None →
          error = VStr "" ∧ message = VStr "Bad Gateway") ∧
    (∀ v, httpx.json resp_502_html = Some v → (∀ d, v ≠ VDict d) →
          error = VStr "" ∧ message = VStr "Bad Gateway").
Proof.
  apply (proj1 handle_response_unmapped_status resp_502_html).
  - unfold is_2xx. simpl. lia.
  - unfold mapped_statuses. simpl.
    repeat (apply not_elem_of_cons; split; [discriminate |]).
    apply not_elem_of_nil.
Defined.

(** C4: a non-2xx response whose body does not decode raises an error with
    the empty error code and the raw response text as message; on a 404
    the error is a [NotFoundError]. *)
Theorem handle_response_undecodable_error :
  ∀ resp : httpx.Response,
    ¬ is_2xx (httpx.status_code resp) →
    httpx.json resp = None →
    ∃ e : ApiError,
      _handle_response resp = Raise (ExnApiError e) ∧
      error e = VStr "" ∧
      message e = VStr (httpx.text resp) ∧
      exceptions.status_code e = httpx.status_code resp ∧
      (httpx.status_code resp = 404%Z → cls e = NotFoundErrorCls).
Proof.
  intros resp Hn Hj.
  rewrite (handle_response_failure _ Hn), (error_fields_undecodable _ Hj).
  destruct (error_map !! httpx.status_code resp) as [c|] eqn:Hm.
  - eexists. split; [reflexivity |].
    destruct (error_map_passthrough _ _ (VStr "") (VStr (httpx.text resp)) Hm)
      as (Hs & He & Hmsg).
    split; [done |]. split; [done |]. split; [done |].
    intros H404. rewrite H404 in Hm.
    apply error_map_lookup_Some in Hm.
    destruct Hm as [[? _] | [[? _] | [[? _] | [[_ ->] | [[? _] | [? _]]]]]];
      done.
  - eexists. split; [reflexivity |]. repeat split.
    intros H404. rewrite H404 in Hm. by vm_compute in Hm.
Qed.

Lemma handle_response_undecodable_error_witness :
  ∃ e : ApiError,
    _handle_response resp_404_html = Raise (ExnApiError e) ∧
    error e = VStr "" ∧
    message e = VStr "<h1>Not Found</h1>" ∧
    exceptions.status_code e = 404%Z ∧
    (404%Z = 404%Z → cls e = NotFoundErrorCls).
Proof.
  apply (handle_response_undecodable_error resp_404_html).
  - unfold is_2xx. simpl. lia.
  - reflexivity.
Defined.

(** C9 as stated fails: a 401 whose body decodes to a JSON array lacks both
    fields, and the message of the raised error is the raw text. *)
Lemma missing_fields_not_empty_for_array :
  ¬ is_2xx (httpx.status_code resp_401_array) ∧
  httpx.json resp_401_array = Some (VList []) ∧
  _handle_response resp_401_array
    = Raise (ExnApiError (mkApiError AuthenticationErrorCls 401 (VStr "") (VStr "[]"))) ∧
  ¬ missing_fields_are_empty resp_401_array.
Proof.
  split; [unfold is_2xx; simpl; lia |].
  split; [reflexivity |]. split; [reflexivity |].
  intros H. destruct (H (VList []) eq_refl) as (e & He & _ & Hm).
  vm_compute in He. injection He as <-.
  specialize (Hm I). discriminate Hm.
Qed.

(** C9: a non-2xx response whose body decodes to a JSON object that lacks
    the error or the message key raises an error carrying the empty string
    for each missing field and the body's value for each present one, not
    the defaults of the error kind; a 401 with body {} raises
    [AuthenticationError] with both fields empty.  A body that decodes to
    anything but an object is handled as an undecodable body. *)
Theorem handle_response_missing_fields :
  (∀ (resp : httpx.Response) (d : gmap string value),
     ¬ is_2xx (httpx.status_code resp) →
     httpx.json resp = Some (VDict d) →
     missing_fields_are_empty resp ∧
     ∃ e : ApiError,
       _handle_response resp = Raise (ExnApiError e) ∧
       (∀ E, d !! "error" = Some E → error e = E) ∧
       (∀ M, d !! "message" = Some M → message e = M)) ∧
  (∀ (resp : httpx.Response) (v : value),
     ¬ is_2xx (httpx.status_code resp) →
     httpx.json resp = Some v → (∀ d, v ≠ VDict d) →
     ∃ e : ApiError,
       _handle_response resp = Raise (ExnApiError e) ∧
       error e = VStr "" ∧ message e = VStr (httpx.text resp)) ∧
  _handle_response resp_401_empty_object
    = Raise (ExnApiError (mkApiError AuthenticationErrorCls 401 (VStr "") (VStr ""))) ∧
  AuthenticationError None None
    ≠ mkApiError AuthenticationErrorCls 401 (VStr "") (VStr "").
Proof.
  assert (∀ resp em, ¬ is_2xx (httpx.status_code resp) → error_fields resp = em →
            ∃ e, _handle_response resp = Raise (ExnApiError e) ∧
                 error e = em.1 ∧ message e = em.2) as Hgen.
  { intros resp [er ms] Hn Hf. rewrite (handle_response_failure _ Hn), Hf.
    destruct (error_map !! httpx.status_code resp) as [c|] eqn:Hm.
    - eexists. split; [reflexivity |].
      by destruct (error_map_passthrough _ _ er ms Hm) as (_ & ? & ?).
    - eexists. split; [reflexivity |]. done. }
  split; [| split; [| split]].
  - intros resp d Hn Hj.
    destruct (Hgen _ _ Hn (error_fields_dict _ _ Hj)) as (e & He & Her & Hms).
    simpl in Her, Hms. split.
    + intros v Hv. rewrite Hj in Hv. injection Hv as <-.
      exists e. split; [done |]. simpl. split.
      * intros Hl. by rewrite Her, Hl.
      * intros Hl. by rewrite Hms, Hl.
    + exists e. split; [done |]. split.
      * intros E HE. by rewrite Her, HE.
      * intros M HM. by rewrite Hms, HM.
  - intros resp v Hn Hj Hv.
    apply (Hgen _ _ Hn (error_fields_not_dict _ _ Hj Hv)).
  - reflexivity.
  - discriminate.
Qed.

Lemma handle_response_missing_fields_witness :
  missing_fields_are_empty resp_401_empty_object ∧
  ∃ e : ApiError,
    _handle_response resp_401_array = Raise (ExnApiError e) ∧
    error e = VStr "" ∧ message e = VStr "[]".
Proof.
  destruct handle_response_missing_fields as (Hobj & Hother & _).
  split.
  - apply (Hobj resp_401_empty_object ∅).
    + unfold is_2xx. simpl. lia.
    + reflexivity.
  - apply (Hother resp_401_array (VList [])).
    + unfold is_2xx. simpl. lia.
    + reflexivity.
    + discriminate.
Defined.

(** ** Requests and the credential *)

Section Requests.

Variable httpx_send : list httpx.Request → httpx.Request → httpx.send_result.

(** What [with_authorization] does to the [Authorization] key. *)
Lemma with_authorization_lookup (self : HttpClient.t) (headers : gmap string string) :
  headers !! "Authorization" = None →
  with_authorization self headers !! "Authorization"
    = match _token self with
      | Some token => if truthy token then Some ("Bearer " +:+ token) else None
      | None => None
      end.
Proof.
  intros H. unfold with_authorization.
  destruct (_token self) as [token|]; [| done].
  destruct (truthy token); [| done].
  by rewrite lookup_insert_eq.
Qed.


Lemma send_then_handle (rq : httpx.Request) (w : world) :
  sends_exactly httpx_send (send httpx_send rq ≫= λ resp, lift (_handle_response resp)) w rq.
Proof.
  unfold sends_exactly, after, outcome, mbind, M_bind, send, lift.
  by destruct (httpx_send (wire w) rq).
Qed.

Lemma get_sends (path : string) (params : option (gmap string value)) (w : world) :
  sends_exactly httpx_send (HttpClient_get httpx_send path params) w
    {| httpx.method := httpx.GET; httpx.url := _base_url (http w) +:+ path;
       httpx.headers := _headers (http w); httpx.params := params;
       httpx.json_body := None; httpx.data := None |}.
Proof. apply send_then_handle. Qed.

Lemma post_sends (path : string) (json : option value) (w : world) :
  sends_exactly httpx_send (HttpClient_post httpx_send path json) w
    {| httpx.method := httpx.POST; httpx.url := _base_url (http w) +:+ path;
       httpx.headers := _headers (http w); httpx.params := None;
       httpx.json_body := json; httpx.data := None |}.
Proof. apply send_then_handle. Qed.

Lemma sends_exactly_sent (m : M value) (w : world) (rq : httpx.Request) :
  sends_exactly httpx_send m w rq → sent m w = [rq].
Proof.
  intros [H _]. unfold sent. rewrite H. simpl. apply drop_app_length.
Qed.

(** Every method of the transport sends one request, whose
    [Authorization] header follows the truth value of the token. *)
Lemma transport_call_sends (c : transport_call) (w : world) :
  ∃ rq : httpx.Request,
    sends_exactly httpx_send (run_transport_call httpx_send c) w rq ∧
    authorization rq
      = match _token (http w) with
        | Some token => if truthy token then Some ("Bearer " +:+ token) else None
        | None => None
        end.
Proof.
  destruct c; simpl; eexists; (split; [apply send_then_handle |]);
    unfold authorization; simpl;
    unfold _headers, _form_headers; by rewrite with_authorization_lookup.
Qed.

Lemma truthy_string_iff (s : string) : truthy s = true ↔ s ≠ "".
Proof. by destruct s. Qed.

End Requests.

Lemma sent_after_set_token (t : string) (m : M value) (w : world) :
  sent (CoreAuthClient_set_token t ≫= λ _, m) w
    = sent m {| http := HttpClient.set_token (http w) t; wire := wire w |} ∧
  outcome (CoreAuthClient_set_token t ≫= λ _, m) w
    = outcome m {| http := HttpClient.set_token (http w) t; wire := wire w |} ∧
  sent (CoreAuthClient_clear_token ≫= λ _, m) w
    = sent m {| http := HttpClient.clear_token (http w); wire := wire w |} ∧
  outcome (CoreAuthClient_clear_token ≫= λ _, m) w
    = outcome m {| http := HttpClient.clear_token (http w); wire := wire w |}.
Proof. done. Qed.

(** C5 as stated fails at the empty token: after [set_token("")] the next
    request has no [Authorization] header. *)
Lemma empty_token_sends_no_bearer :
  authorization <$> sent (CoreAuthClient_set_token "" ≫=
      λ _, run_transport_call (constant_server resp_200_empty)
             (CallGet "/api/auth/me" None)) sample_world
    = [None] ∧
  ¬ set_token_gives_bearer (constant_server resp_200_empty) ""
      (CallGet "/api/auth/me" None) sample_world.
Proof.
  split; [by vm_compute |].
  unfold set_token_gives_bearer. by vm_compute.
Qed.

(** C5: every request of the transport carries [Authorization: Bearer t]
    exactly when the credential is a non-empty token [t]; after
    [set_token(t)] with [t] non-empty the next request carries [Bearer t],
    and after [clear_token()] the next request carries no such header. *)
Theorem authorization_iff_nonempty_token :
  ∀ (httpx_send : list httpx.Request → httpx.Request → httpx.send_result)
    (c : transport_call) (w : world),
    (∃ rq : httpx.Request,
       sent (run_transport_call httpx_send c) w = [rq] ∧
       (∀ t, _token (http w) = Some t → t ≠ "" →
             authorization rq = Some ("Bearer " +:+ t)) ∧
       (_token (http w) = None ∨ _token (http w) = Some "" →
             authorization rq = None)) ∧
    (∀ t, t ≠ "" → set_token_gives_bearer httpx_send t c w) ∧
    authorization <$> sent (CoreAuthClient_clear_token ≫=
                              λ _, run_transport_call httpx_send c) w
      = [None].
Proof.
  intros send c w. split; [| split].
  - destruct (transport_call_sends send c w) as (rq & Hs & Ha).
    exists rq. split; [by apply (sends_exactly_sent send) |]. split.
    + intros t Ht Hne. rewrite Ha, Ht.
      apply truthy_string_iff in Hne. by rewrite Hne.
    + intros [Ht | Ht]; by rewrite Ha, Ht.
  - intros t Hne. unfold set_token_gives_bearer.
    destruct (sent_after_set_token t (run_transport_call send c) w) as (-> & _).
    destruct (transport_call_sends send c
                {| http := HttpClient.set_token (http w) t; wire := wire w |})
      as (rq & Hs & Ha).
    rewrite (sends_exactly_sent send _ _ _ Hs). simpl in *.
    apply truthy_string_iff in Hne. by rewrite Ha, Hne.
  - destruct (sent_after_set_token "" (run_transport_call send c) w)
      as (_ & _ & -> & _).
    destruct (transport_call_sends send c
                {| http := HttpClient.clear_token (http w); wire := wire w |})
      as (rq & Hs & Ha).
    rewrite (sends_exactly_sent send _ _ _ Hs). simpl in *. by rewrite Ha.
Qed.

Lemma authorization_iff_nonempty_token_witness :
  set_token_gives_bearer (constant_server resp_200_a1) "tok-1"
    (CallPostForm "/oauth/token" ∅) sample_world.
Proof.
  apply (authorization_iff_nonempty_token (constant_server resp_200_a1)
           (CallPostForm "/oauth/token" ∅) sample_world).
  discriminate.
Defined.

(** Unfolds a transport call run after a change of the token. *)
Ltac run_call :=
  unfold run_transport_call, CoreAuthClient_set_token, CoreAuthClient_clear_token,
    HttpClient_get, HttpClient_post, HttpClient_post_form, HttpClient_put,
    HttpClient_patch, HttpClient_delete, mbind, M_bind, get_http, put_http,
    send, lift, _headers, _form_headers, with_authorization;
  simpl.

(** C10: [set_token("")] behaves like [clear_token()]: the next call sends
    the same request, without any [Authorization] header, and has the same
    outcome; a request carries the header only for a non-empty token. *)
Theorem empty_token_like_clear_token :
  ∀ (httpx_send : list httpx.Request → httpx.Request → httpx.send_result)
    (c : transport_call) (w : world),
    sent (CoreAuthClient_set_token "" ≫= λ _, run_transport_call httpx_send c) w
      = sent (CoreAuthClient_clear_token ≫= λ _, run_transport_call httpx_send c) w ∧
    outcome (CoreAuthClient_set_token "" ≫= λ _, run_transport_call httpx_send c) w
      = outcome (CoreAuthClient_clear_token ≫=
                   λ _, run_transport_call httpx_send c) w ∧
    authorization <$> sent (CoreAuthClient_set_token "" ≫=
                              λ _, run_transport_call httpx_send c) w
      = [None] ∧
    (∀ rq : httpx.Request,
       sent (run_transport_call httpx_send c) w = [rq] →
       (is_Some (authorization rq) ↔ ∃ t, _token (http w) = Some t ∧ t ≠ "")).
Proof.
  intros send c w. split; [| split; [| split]].
  - destruct c; unfold sent, after; run_call;
      destruct (send (wire w) _); reflexivity.
  - destruct c; unfold outcome; run_call;
      destruct (send (wire w) _); reflexivity.
  - destruct (sent_after_set_token "" (run_transport_call send c) w) as (-> & _).
    destruct (transport_call_sends send c
                {| http := HttpClient.set_token (http w) ""; wire := wire w |})
      as (rq & Hs & Ha).
    rewrite (sends_exactly_sent send _ _ _ Hs). simpl in *. by rewrite Ha.
  - intros rq Hrq.
    destruct (transport_call_sends send c w) as (rq' & Hs & Ha).
    rewrite (sends_exactly_sent send _ _ _ Hs) in Hrq. injection Hrq as ->.
    rewrite Ha. destruct (_token (http w)) as [t|].
    + destruct t as [|a t]; simpl.
      * split; [by intros [? ?] | by intros (? & [= <-] & ?)].
      * split; [intros _; by eexists | by eauto].
    + split; [by intros [? ?] | by intros (? & ? & ?)].
Qed.

Lemma empty_token_like_clear_token_witness :
  is_Some (authorization
             {| httpx.method := httpx.GET;
                httpx.url := "http://localhost:3000/api/auth/me";
                httpx.headers := _headers (HttpClient.__init__ "http://localhost:3000/" None);
                httpx.params := None; httpx.json_body := None;
                httpx.data := None |})
  ↔ ∃ t, _token (http sample_world) = Some t ∧ t ≠ "".
Proof.
  apply (empty_token_like_clear_token (constant_server resp_200_empty)
           (CallGet "/api/auth/me" None) sample_world).
  by vm_compute.
Defined.

(** ** The login scenario *)

(** C6: [login("t1", "u@x.com", "pw")] hands exactly one request to httpx,
    a POST to the base address followed by /api/auth/login with the three
    credentials as JSON body; when the answer has status 200 and a JSON
    token object as body, the call returns that object unchanged. *)
Theorem login_sends_one_post :
  ∀ (httpx_send : list httpx.Request → httpx.Request → httpx.send_result)
    (w : world),
    let rq :=
      {| httpx.method := httpx.POST;
         httpx.url := _base_url (http w) +:+ "/api/auth/login";
         httpx.headers := _headers (http w);
         httpx.params := None;
         httpx.json_body :=
           Some (VDict {[ "tenant_id" := VStr "t1";
                          "email" := VStr "u@x.com";
                          "password" := VStr "pw" ]});
         httpx.data := None |} in
    sent (AuthService_login httpx_send "t1" "u@x.com" "pw") w = [rq] ∧
    (∀ (resp : httpx.Response) (token : value),
       httpx_send (wire w) rq = httpx.Responded resp →
       httpx.status_code resp = 200%Z →
       httpx.content resp ≠ [] →
       httpx.json resp = Some token →
       outcome (AuthService_login httpx_send "t1" "u@x.com" "pw") w = Ok token).
Proof.
  intros send w rq.
  pose proof (post_sends send "/api/auth/login"
                (Some (VDict {[ "tenant_id" := VStr "t1";
                                "email" := VStr "u@x.com";
                                "password" := VStr "pw" ]})) w) as Hs.
  fold rq in Hs. split.
  - by apply (sends_exactly_sent send).
  - intros resp token Hresp H200 Hc Hj.
    destruct Hs as [_ Ho]. unfold AuthService_login. rewrite Ho, Hresp.
    apply (proj2 (proj2 handle_response_json_body) resp token);
      [unfold is_2xx; lia | lia | done | done].
Qed.

Lemma login_sends_one_post_witness :
  sent (AuthService_login (constant_server resp_200_token) "t1" "u@x.com" "pw")
       sample_world
    = [ {| httpx.method := httpx.POST;
           httpx.url := "http://localhost:3000/api/auth/login";
           httpx.headers := {[ "Content-Type" := "application/json" ]};
           httpx.params := None;
           httpx.json_body :=
             Some (VDict {[ "tenant_id" := VStr "t1";
                            "email" := VStr "u@x.com";
                            "password" := VStr "pw" ]});
           httpx.data := None |} ] ∧
  outcome (AuthService_login (constant_server resp_200_token) "t1" "u@x.com" "pw")
          sample_world
    = Ok dict_token.
Proof.
  destruct (login_sends_one_post (constant_server resp_200_token) sample_world)
    as [Hsent Hout].
  split.
  - exact Hsent.
  - apply (Hout resp_200_token dict_token).
    + reflexivity.
    + reflexivity.
    + vm_compute. discriminate.
    + reflexivity.
Defined.

(** ** Query mappings of the services *)

Lemma lookup_setitem_if_ne (cond : bool) (key k : string) (v : value)
    (d : gmap string value) :
  k ≠ key → setitem_if cond key v d !! k = d !! k.
Proof.
  intros Hne. unfold setitem_if. destruct cond; [| done].
  by apply lookup_insert_ne.
Qed.

Lemma not_given `{A : Type} (key k : string) (arg : option A) :
  k ∉ given key arg → arg = None ∨ k ≠ key.
Proof.
  destruct arg as [a|]; [| by left].
  simpl. intros H. right. by apply not_elem_of_singleton in H.
Qed.

(** [if x: d[key] = x] leaves [k] alone when the argument for [key] was not
    supplied or stands for another key. *)
Lemma lookup_setitem_if_truthy (key k : string) (arg : option string)
    (d : gmap string value) :
  k ∉ given key arg →
  setitem_if (truthy arg) key (to_value arg) d !! k = d !! k.
Proof.
  intros H. destruct (not_given _ _ _ H) as [-> | Hne]; [done |].
  by apply lookup_setitem_if_ne.
Qed.

(** The same for [if x is not None: d[key] = x]. *)
Lemma lookup_setitem_if_not_None `{ToValue A} (key k : string) (arg : option A)
    (d : gmap string value) :
  k ∉ given key arg →
  setitem_if (is_not_None arg) key (to_value arg) d !! k = d !! k.
Proof.
  intros H0. destruct (not_given _ _ _ H0) as [-> | Hne]; [done |].
  by apply lookup_setitem_if_ne.
Qed.

Lemma or_None_Some (d q : gmap string value) : or_None d = Some q → q = d.
Proof. unfold or_None. destruct (truthy d); congruence. Qed.

Lemma or_None_empty : or_None ∅ = None.
Proof. reflexivity. Qed.

Lemma given_empty `{A : Type} (key : string) (arg : option A) :
  given key arg = ∅ → arg = None.
Proof.
  destruct arg as [a|]; [| done]. simpl. intros H.
  assert (key ∈ (∅ : gset string)) as Hin by (rewrite <- H; by apply elem_of_singleton).
  by apply not_elem_of_empty in Hin.
Qed.

(** The query mapping of a request, or the empty mapping when none was
    passed: its keys are the keys of the query string. *)
Lemma query_keys_absent (q : option (gmap string value)) (d : gmap string value)
    (k : string) :
  q = or_None d → d !! k = None → ∀ q', q = Some q' → q' !! k = None.
Proof. intros -> Hd q' Hq. by rewrite (or_None_Some _ _ Hq). Qed.

Ltac split_supplied H :=
  repeat match type of H with
         | _ ∉ _ ∪ _ => apply not_elem_of_union in H as [H ?]
         end.

Ltac absent_key :=
  repeat first
    [ rewrite lookup_setitem_if_truthy by assumption
    | rewrite lookup_setitem_if_not_None by assumption ];
  first [ apply lookup_empty | by apply not_elem_of_dom ].

Ltac nothing_supplied H :=
  repeat match type of H with
         | _ ∪ _ = ∅ => apply empty_union_L in H as [H ?]
         end;
  repeat match goal with
         | H' : given _ _ = ∅ |- _ => apply given_empty in H'; subst
         | H' : dom _ = ∅ |- _ => apply dom_empty_iff_L in H'; subst
         end.

(** C7 as stated fails for [OAuth2Service.authorize]: its optional
    arguments [response_type] and [scope], when not supplied, appear in the
    query with their defaults. *)
Lemma authorize_defaults_in_query :
  OAuth2Service_authorize_query "app" "https://app.example/cb" None None ∅
    !! "response_type" = Some (VStr "code") ∧
  OAuth2Service_authorize_query "app" "https://app.example/cb" None None ∅
    !! "scope" = Some (VStr "openid") ∧
  ¬ unsupplied_is_absent
      (OAuth2Service_authorize_query "app" "https://app.example/cb" None None ∅)
      "response_type" (None : option string).
Proof.
  split; [by vm_compute |]. split; [by vm_compute |].
  intros H. specialize (H eq_refl). by vm_compute in H.
Qed.

(** C7: every service method that hands [HttpClient.get] a query mapping
    built from arguments defaulting to [None] sends one GET whose query has
    no key for an argument that was not supplied, and passes no query
    mapping at all when no optional argument is supplied. *)
Theorem unsupplied_query_arguments_absent :
  ∀ (httpx_send : list httpx.Request → httpx.Request → httpx.send_result)
    (c : query_call) (w : world),
    ∃ rq : httpx.Request,
      sends_exactly httpx_send (run_query_call httpx_send c) w rq ∧
      httpx.method rq = httpx.GET ∧
      (∀ key : string, key ∉ supplied_keys c →
         ∀ q, httpx.params rq = Some q → q !! key = None) ∧
      (supplied_keys c = ∅ → httpx.params rq = None).
Proof.
  intros send c w.
  destruct c; simpl;
    (eexists; split; [apply get_sends |]; split; [reflexivity |]; split;
     [ intros key Hk; apply (query_keys_absent _ _ key eq_refl);
       split_supplied Hk; absent_key
     | intros He; nothing_supplied He; simpl; apply or_None_empty ]).
Qed.

Lemma unsupplied_query_arguments_absent_witness :
  ∃ rq : httpx.Request,
    sends_exactly (constant_server resp_200_a1)
      (ScimService_list_users (constant_server resp_200_a1)
         None (Some 10%Z) None ∅) sample_world rq ∧
    httpx.method rq = httpx.GET ∧
    (∀ q, httpx.params rq = Some q →
          q !! "filter" = None ∧ q !! "startIndex" = None).
Proof.
  destruct (unsupplied_query_arguments_absent (constant_server resp_200_a1)
              (Scim_list_users None (Some 10%Z) None ∅) sample_world)
    as (rq & Hs & Hm & Habs & _).
  exists rq. split; [exact Hs |]. split; [exact Hm |].
  intros q Hq. split.
  - apply (Habs "filter"); [| exact Hq]. by vm_compute.
  - apply (Habs "startIndex"); [| exact Hq]. by vm_compute.
Defined.

(** * Further properties of the code *)

(** ** The base address *)

Lemma rstrip_slash_decompose (s : string) :
  ∃ n : nat, s = rstrip_slash s +:+ slashes n.
Proof.
  induction s as [|c rest [n IH]]; [by exists O |].
  simpl. destruct (rstrip_slash rest) as [|a r] eqn:Hr.
  - simpl in IH. destruct (Ascii.eqb c "/") eqn:Hc.
    + apply Ascii.eqb_eq in Hc as ->. exists (S n). simpl. by rewrite IH at 1.
    + exists n. simpl. by rewrite IH at 1.
  - exists n. simpl. simpl in IH. by rewrite IH at 1.
Qed.

Lemma rstrip_slash_no_trailing (s : string) :
  ends_with_slash (rstrip_slash s) = false.
Proof.
  induction s as [|c rest IH]; [done |].
  simpl. destruct (rstrip_slash rest) as [|a r] eqn:Hr.
  - destruct (Ascii.eqb c "/") eqn:Hc; [done |]. simpl. exact Hc.
  - exact IH.
Qed.

Lemma rstrip_slash_id (s : string) :
  ends_with_slash s = false → rstrip_slash s = s.
Proof.
  induction s as [|c rest IH]; [done |].
  destruct rest as [|a r].
  - simpl. by intros ->.
  - intros H. change (ends_with_slash (String a r) = false) in H.
    change (rstrip_slash (String c (String a r)))
      with (match rstrip_slash (String a r) with
            | EmptyString =>
                if Ascii.eqb c "/" then EmptyString else String c EmptyString
            | String a' r' => String c (String a' r')
            end).
    by rewrite (IH H).
Qed.

(** X1: the base address a transport is built with is stored without its
    trailing slashes: the stored address followed by some number of slashes
    is the address given, it never ends in a slash, and an address without
    trailing slash is stored unchanged. *)
Theorem base_url_without_trailing_slashes :
  ∀ (base_url : string) (token : option string),
    (∃ n : nat,
       base_url = _base_url (HttpClient.__init__ base_url token) +:+ slashes n) ∧
    ends_with_slash (_base_url (HttpClient.__init__ base_url token)) = false ∧
    (ends_with_slash base_url = false →
       _base_url (HttpClient.__init__ base_url token) = base_url) ∧
    _token (HttpClient.__init__ base_url token) = token.
Proof.
  intros base_url token. simpl. split; [apply rstrip_slash_decompose |].
  split; [apply rstrip_slash_no_trailing |].
  split; [apply rstrip_slash_id | done].
Qed.

Lemma base_url_without_trailing_slashes_witness :
  _base_url (HttpClient.__init__ "http://localhost:3000" None)
    = "http://localhost:3000" ∧
  _base_url (HttpClient.__init__ "http://localhost:3000//" None)
    = "http://localhost:3000".
Proof.
  split.
  - apply (base_url_without_trailing_slashes "http://localhost:3000" None).
    reflexivity.
  - reflexivity.
Defined.

(** ** Classification of responses *)

(** X2: the response handler raises an [ApiError] exactly for the statuses
    outside 200..299; for a status inside it returns a value or lets the
    decode error of the body through, and nothing else. *)
Theorem api_error_iff_not_2xx :
  ∀ resp : httpx.Response,
    ((∃ e : ApiError, _handle_response resp = Raise (ExnApiError e))
       ↔ ¬ is_2xx (httpx.status_code resp)) ∧
    (is_2xx (httpx.status_code resp) →
       (∃ v : value, _handle_response resp = Ok v) ∨
       _handle_response resp = Raise ExnJSONDecodeError).
Proof.
  intros resp.
  assert (is_2xx (httpx.status_code resp) →
          (∃ v : value, _handle_response resp = Ok v) ∨
          _handle_response resp = Raise ExnJSONDecodeError) as H2xx.
  { intros H2. unfold _handle_response. cbv zeta.
    destruct (httpx.status_code resp =? 204)%Z; [left; by eexists |].
    rewrite (status_2xx_test _ H2).
    destruct (negb (truthy (httpx.content resp))); [left; by eexists |].
    unfold resp_json. destruct (httpx.json resp); [left; by eexists | by right]. }
  split; [| exact H2xx]. split.
  - intros [e He] H2. destruct (H2xx H2) as [[v Hv] | Hd]; congruence.
  - intros Hn. rewrite (handle_response_failure _ Hn).
    destruct (error_fields resp) as [er ms].
    destruct (error_map !! httpx.status_code resp); by eexists.
Qed.

Lemma api_error_iff_not_2xx_witness :
  (∃ e : ApiError, _handle_response resp_502_html = Raise (ExnApiError e)) ∧
  ((∃ v : value, _handle_response resp_200_garbage = Ok v) ∨
   _handle_response resp_200_garbage = Raise ExnJSONDecodeError).
Proof.
  split.
  - apply (proj1 (api_error_iff_not_2xx resp_502_html)).
    unfold is_2xx. simpl. lia.
  - apply (proj2 (api_error_iff_not_2xx resp_200_garbage)).
    unfold is_2xx. simpl. lia.
Defined.

Lemma error_map_class (status : Z) (c : option value → option value → ApiError)
    (e m : option value) :
  error_map !! status = Some c →
  cls (c e m) ≠ ApiErrorCls ∧ exceptions.status_code (c e m) = status ∧
  status ∈ mapped_statuses ∧
  ∀ kind de dm, (status, kind, de, dm) ∈ status_table → cls (c e m) = kind.
Proof.
  intros H. apply error_map_lookup_Some in H.
  unfold mapped_statuses, status_table.
  destruct H as [[-> ->] | [[-> ->] | [[-> ->] | [[-> ->] | [[-> ->] | [-> ->]]]]]];
    (split; [done |]; split; [done |]; split; [set_solver |]);
    intros kind de dm Ht;
    repeat (apply elem_of_cons in Ht as [Ht | Ht]; [by simplify_eq |]);
    by apply elem_of_nil in Ht.
Qed.

Lemma mapped_status_has_row (status : Z) :
  status ∈ mapped_statuses →
  ∃ kind de dm, (status, kind, de, dm) ∈ status_table.
Proof.
  unfold mapped_statuses, status_table. intros H.
  repeat (apply elem_of_cons in H as [-> | H];
          [do 3 eexists;
           repeat first [apply list_elem_of_here | apply list_elem_of_further] |]).
  by apply elem_of_nil in H.
Qed.

(** X3: the kind and the status code of the error raised for a non-2xx
    response depend on the status code alone, never on the body: the error
    carries the status of the response, it is the generic [ApiError]
    exactly when the status is not one of the six mapped ones, and the kind
    of the table otherwise. *)
Theorem error_kind_follows_status :
  ∀ resp : httpx.Response,
    ¬ is_2xx (httpx.status_code resp) →
    ∃ e : ApiError,
      _handle_response resp = Raise (ExnApiError e) ∧
      exceptions.status_code e = httpx.status_code resp ∧
      (cls e = ApiErrorCls ↔ httpx.status_code resp ∉ mapped_statuses) ∧
      (∀ kind de dm,
         (httpx.status_code resp, kind, de, dm) ∈ status_table → cls e = kind) ∧
      (∀ (resp' : httpx.Response) (e' : ApiError),
         httpx.status_code resp' = httpx.status_code resp →
         _handle_response resp' = Raise (ExnApiError e') →
         cls e' = cls e ∧ exceptions.status_code e' = exceptions.status_code e).
Proof.
  assert (∀ resp, ¬ is_2xx (httpx.status_code resp) →
            ∃ e, _handle_response resp = Raise (ExnApiError e) ∧
                 exceptions.status_code e = httpx.status_code resp ∧
                 (cls e = ApiErrorCls ↔ httpx.status_code resp ∉ mapped_statuses) ∧
                 (∀ kind de dm,
                    (httpx.status_code resp, kind, de, dm) ∈ status_table →
                    cls e = kind)) as Hone.
  { intros resp Hn. rewrite (handle_response_failure _ Hn).
    destruct (error_fields resp) as [er ms].
    destruct (error_map !! httpx.status_code resp) as [c|] eqn:Hm.
    - destruct (error_map_class _ _ (Some er) (Some ms) Hm) as (Hc & Hs & Hin & Hk).
      eexists. split; [reflexivity |]. split; [done |]. split; [| done].
      split; [done | by intros Hnot].
    - eexists. split; [reflexivity |]. split; [done |]. split.
      + split; [| done]. intros _ Hin.
        unfold mapped_statuses in Hin.
        repeat (apply elem_of_cons in Hin as [Hin | Hin];
                [rewrite Hin in Hm; by vm_compute in Hm |]).
        by apply elem_of_nil in Hin.
      + intros kind de dm Ht.
        destruct (error_map_lookup_table _ _ _ _ Ht) as (c & Hc & _). congruence. }
  intros resp Hn. destruct (Hone resp Hn) as (e & He & Hs & Hc & Hk).
  exists e. split; [done |]. split; [done |]. split; [done |]. split; [done |].
  intros resp' e' Hst He'.
  assert (¬ is_2xx (httpx.status_code resp')) as Hn' by (by rewrite Hst).
  destruct (Hone resp' Hn') as (e2 & He2 & Hs2 & Hc2 & Hk2).
  rewrite He' in He2. injection He2 as <-.
  split; [| congruence].
  destruct (decide (httpx.status_code resp ∈ mapped_statuses)) as [Hin | Hnot].
  - destruct (mapped_status_has_row _ Hin) as (kind & de & dm & Hrow).
    rewrite (Hk _ _ _ Hrow). apply (Hk2 kind de dm). by rewrite Hst.
  - rewrite (proj2 Hc Hnot). apply Hc2. by rewrite Hst.
Qed.

Lemma error_kind_follows_status_witness :
  ∃ e : ApiError,
    _handle_response (resp_with_xy 429) = Raise (ExnApiError e) ∧
    exceptions.status_code e = 429%Z ∧ cls e = RateLimitErrorCls.
Proof.
  destruct (error_kind_follows_status (resp_with_xy 429)) as (e & He & Hs & _ & Hk & _).
  - unfold is_2xx. simpl. lia.
  - exists e. split; [exact He |]. split; [exact Hs |].
    apply (Hk RateLimitErrorCls "rate_limited" "Rate limit exceeded").
    unfold status_table. simpl. do 5 apply list_elem_of_further.
    apply list_elem_of_here.
Defined.

(** ** One call, one request *)



Lemma with_authorization_dom (self : HttpClient.t) (content_type : string) :
  dom (with_authorization self {[ "Content-Type" := content_type ]})
    ⊆ ({[ "Content-Type"; "Authorization" ]} : gset string) ∧
  with_authorization self {[ "Content-Type" := content_type ]} !! "Content-Type"
    = Some content_type.
Proof.
  unfold with_authorization.
  destruct (_token self) as [token|]; [destruct (truthy token) |].
  - split; [rewrite dom_insert_L, dom_singleton_L; set_solver |].
    by rewrite lookup_insert_ne, lookup_singleton_eq.
  - split; [rewrite dom_singleton_L; set_solver | by rewrite lookup_singleton_eq].
  - split; [rewrite dom_singleton_L; set_solver | by rewrite lookup_singleton_eq].
Qed.

(** X5: a request of the transport carries no header besides Content-Type
    and Authorization; Content-Type is application/json for get, post,
    put, patch and delete, and application/x-www-form-urlencoded for
    post_form; only post_form passes form data, and it passes no JSON
    body. *)
Theorem request_headers_and_encoding :
  ∀ (httpx_send : list httpx.Request → httpx.Request → httpx.send_result)
    (c : transport_call) (w : world) (rq : httpx.Request),
    sent (run_transport_call httpx_send c) w = [rq] →
    dom (httpx.headers rq) ⊆ ({[ "Content-Type"; "Authorization" ]} : gset string) ∧
    httpx.headers rq !! "Content-Type"
      = Some (if call_is_form c then "application/x-www-form-urlencoded"
              else "application/json") ∧
    (is_Some (httpx.data rq) ↔ call_is_form c = true) ∧
    (call_is_form c = true → httpx.json_body rq = None ∧ httpx.params rq = None).
Proof.
  intros send c w rq Hs.
  destruct c; simpl in *;
    match type of Hs with
    | sent ?m w = _ =>
        let H := fresh in
        pose proof (sends_exactly_sent send m w _ (send_then_handle send _ w)) as H;
        rewrite H in Hs; injection Hs as <-
    end; simpl;
    unfold _headers, _form_headers;
    (split; [apply with_authorization_dom |];
     split; [apply with_authorization_dom |]; split; [| done]);
    first [ split; [by intros [? ?] | done] | split; [done | by eexists] ].
Qed.

Lemma request_headers_and_encoding_witness :
  httpx.headers
    {| httpx.method := httpx.POST;
       httpx.url := "http://localhost:3000/oauth/token";
       httpx.headers := _form_headers (http sample_world);
       httpx.params := None; httpx.json_body := None;
       httpx.data := Some ∅ |} !! "Content-Type"
    = Some "application/x-www-form-urlencoded".
Proof.
  apply (request_headers_and_encoding (constant_server resp_200_a1)
           (CallPostForm "/oauth/token" ∅) sample_world).
  reflexivity.
Defined.

(** ** The credential over several operations *)

Lemma run_token_op_world (op : token_op) (w : world) :
  run_token_op op w
    = (Ok tt,
       {| http := {| _base_url := _base_url (http w);
                     _token := match op with
                               | OpSetToken token => Some token
                               | OpClearToken => None
                               end |};
          wire := wire w |}).
Proof. by destruct op. Qed.

Lemma run_token_ops_world (ops : list token_op) (w : world) :
  outcome (run_token_ops ops) w = Ok tt ∧
  wire (after (run_token_ops ops) w) = wire w ∧
  _base_url (http (after (run_token_ops ops) w)) = _base_url (http w) ∧
  _token (http (after (run_token_ops ops) w)) = last_token ops (_token (http w)).
Proof.
  revert w. induction ops as [|op ops IH]; intros w; [done |].
  unfold outcome, after in *. simpl.
  unfold mbind, M_bind. rewrite run_token_op_world.
  destruct (IH {| http := {| _base_url := _base_url (http w);
                             _token := match op with
                                       | OpSetToken token => Some token
                                       | OpClearToken => None
                                       end |};
                  wire := wire w |}) as (Ho & Hw & Hb & Ht).
  split; [exact Ho |]. split; [exact Hw |]. split; [exact Hb |].
  rewrite Ht. unfold last_token. simpl. rewrite last_cons.
  destruct (last ops) as [[token|]|]; [done | done |]. by destruct op.
Qed.

Lemma sent_after_token_ops (ops : list token_op) (m : M value) (w : world) :
  sent (run_token_ops ops ≫= λ _, m) w = sent m (after (run_token_ops ops) w).
Proof.
  destruct (run_token_ops_world ops w) as (Ho & Hw & _).
  unfold sent, after, outcome, mbind, M_bind in *.
  destruct (run_token_ops ops w) as [[[]|e] w1]; simpl in *; [| done].
  by rewrite Hw.
Qed.

(** X6: any sequence of [set_token] and [clear_token] calls sends nothing,
    raises nothing and leaves the base address alone; the credential
    afterwards is the one of the last call of the sequence, whatever came
    before, and the next request carries the header of that credential. *)
Theorem token_ops_last_call_wins :
  ∀ (httpx_send : list httpx.Request → httpx.Request → httpx.send_result)
    (ops : list token_op) (c : transport_call) (w : world),
    outcome (run_token_ops ops) w = Ok tt ∧
    sent (run_token_ops ops) w = [] ∧
    _base_url (http (after (run_token_ops ops) w)) = _base_url (http w) ∧
    _token (http (after (run_token_ops ops) w)) = last_token ops (_token (http w)) ∧
    (∀ (ops' : list token_op) (op : token_op),
       _token (http (after (run_token_ops (ops' ++ [op])) w))
         = _token (http (after (run_token_op op) w))) ∧
    authorization <$> sent (run_token_ops ops ≫=
                              λ _, run_transport_call httpx_send c) w
      = [match last_token ops (_token (http w)) with
         | Some token => if truthy token then Some ("Bearer " +:+ token) else None
         | None => None
         end].
Proof.
  intros send ops c w.
  destruct (run_token_ops_world ops w) as (Ho & Hw & Hb & Ht).
  split; [exact Ho |]. split.
  { unfold sent. rewrite Hw. apply drop_all. }
  split; [exact Hb |]. split; [exact Ht |]. split.
  - intros ops' op.
    destruct (run_token_ops_world (ops' ++ [op]) w) as (_ & _ & _ & ->).
    unfold last_token. rewrite last_snoc.
    unfold after. rewrite run_token_op_world. by destruct op.
  - rewrite sent_after_token_ops.
    destruct (transport_call_sends send c (after (run_token_ops ops) w))
      as (rq & Hs & Ha).
    rewrite (sends_exactly_sent send _ _ _ Hs). simpl. by rewrite Ha, Ht.
Qed.

(** ** Sequences of calls *)



(** ** Query mappings: what is sent *)

Lemma or_None_spec (d : gmap string value) :
  or_None d = if bool_decide (d = ∅) then None else Some d.
Proof.
  unfold or_None, truthy, dict_truthy.
  case_bool_decide as He.
  - subst. by rewrite map_size_empty.
  - destruct (size d) eqn:Hs; [| done]. by apply map_size_empty_iff in Hs.
Qed.

Lemma setitem_if_truthy_lookup (key : string) (arg : option string)
    (d : gmap string value) :
  setitem_if (truthy arg) key (to_value arg) d !! key
    = match nonempty arg with Some v => Some v | None => d !! key end.
Proof.
  destruct arg as [[|a s]|]; try done.
  unfold setitem_if. simpl. by rewrite lookup_insert_eq.
Qed.

Lemma setitem_if_not_None_lookup `{ToValue A} (key : string) (arg : option A)
    (d : gmap string value) :
  setitem_if (is_not_None arg) key (to_value arg) d !! key
    = match arg with Some a => Some (to_value a) | None => d !! key end.
Proof.
  destruct arg as [a|]; [| done].
  unfold setitem_if. simpl. by rewrite lookup_insert_eq.
Qed.

(** Looks a concrete key up in a mapping built by conditional
    assignments. *)
Ltac lookup_built :=
  repeat first
    [ rewrite setitem_if_truthy_lookup
    | rewrite setitem_if_not_None_lookup
    | rewrite lookup_setitem_if_ne by done ];
  rewrite ?lookup_empty.

(** X8: [ScimService.list_users] and [list_scim_groups] send one GET whose
    query holds [filter] only when it is a non-empty string, [count]
    whenever it is given (zero included), and [startIndex] from
    [start_index] whenever that is given, in which case a [startIndex]
    among the extra keyword arguments is replaced; every other extra
    keyword argument goes through unchanged, and no query is passed when
    nothing remains.  Python binds keywords named [filter] and [count] to
    the named parameters, so the extra arguments hold neither. *)
Theorem scim_list_query :
  ∀ (httpx_send : list httpx.Request → httpx.Request → httpx.send_result)
    (filter : option string) (count start_index : option Z)
    (params : gmap string value) (w : world) (m : M value) (path : string),
    params !! "filter" = None →
    params !! "count" = None →
    (m, path) ∈
      [ (ScimService_list_users httpx_send filter count start_index params,
         "/scim/v2/Users");
        (ScimService_list_scim_groups httpx_send filter count start_index params,
         "/scim/v2/Groups") ] →
    ∃ (rq : httpx.Request) (q : gmap string value),
      sends_exactly httpx_send m w rq ∧
      httpx.method rq = httpx.GET ∧
      httpx.url rq = _base_url (http w) +:+ path ∧
      httpx.params rq = (if bool_decide (q = ∅) then None else Some q) ∧
      q !! "filter" = nonempty filter ∧
      q !! "count" = VInt <$> count ∧
      q !! "startIndex" = match start_index with
                          | Some n => Some (VInt n)
                          | None => params !! "startIndex"
                          end ∧
      (∀ k : string, k ≠ "filter" → k ≠ "count" → k ≠ "startIndex" →
         q !! k = params !! k).
Proof.
  intros send filter count start_index params w m path Hf Hc Hin.
  exists {| httpx.method := httpx.GET; httpx.url := _base_url (http w) +:+ path;
            httpx.headers := _headers (http w);
            httpx.params :=
              or_None
                (setitem_if (is_not_None start_index) "startIndex"
                   (to_value start_index)
                   (setitem_if (is_not_None count) "count" (to_value count)
                      (setitem_if (truthy filter) "filter" (to_value filter)
                         params)));
            httpx.json_body := None; httpx.data := None |}.
  eexists. split.
  { apply elem_of_cons in Hin as [[= -> ->] | Hin]; [apply get_sends |].
    apply elem_of_cons in Hin as [[= -> ->] | Hin]; [apply get_sends |].
    by apply elem_of_nil in Hin. }
  split; [reflexivity |]. split; [reflexivity |].
  split; [apply or_None_spec |].
  split; [lookup_built; rewrite Hf; by destruct (nonempty filter) |].
  split; [lookup_built; rewrite Hc; by destruct count |].
  split; [lookup_built; by destruct start_index |].
  intros k H1 H2 H3. by rewrite !lookup_setitem_if_ne.
Qed.

Lemma scim_list_query_witness :
  ∃ (rq : httpx.Request) (q : gmap string value),
    sends_exactly (constant_server resp_200_a1)
      (ScimService_list_users (constant_server resp_200_a1)
         (Some "") (Some 0%Z) (Some 5%Z) {[ "startIndex" := VInt 1 ]})
      sample_world rq ∧
    httpx.params rq = (if bool_decide (q = ∅) then None else Some q) ∧
    q !! "filter" = None ∧
    q !! "count" = Some (VInt 0) ∧
    q !! "startIndex" = Some (VInt 5).
Proof.
  destruct (scim_list_query (constant_server resp_200_a1)
              (Some "") (Some 0%Z) (Some 5%Z) {[ "startIndex" := VInt 1 ]}
              sample_world
              (ScimService_list_users (constant_server resp_200_a1)
                 (Some "") (Some 0%Z) (Some 5%Z) {[ "startIndex" := VInt 1 ]})
              "/scim/v2/Users")
    as (rq & q & Hs & _ & _ & Hp & Hf & Hc & Hsi & _).
  - reflexivity.
  - reflexivity.
  - apply list_elem_of_here.
  - exists rq, q. split; [exact Hs |]. split; [exact Hp |].
    split; [exact Hf |]. split; [exact Hc | exact Hsi].
Defined.

(** X9: [AuditService.query] sends one GET to /api/audit/logs whose query
    holds each of the five string arguments exactly when it is a non-empty
    string, and [limit] and [offset] whenever they are given, zero
    included; it holds no other key, and no query is passed when nothing
    remains.  [FgaService.list_stores] likewise sends [include_inactive]
    whenever it is given, [False] included. *)
Theorem audit_query_entries :
  ∀ (httpx_send : list httpx.Request → httpx.Request → httpx.send_result)
    (tenant_id event_types user_id start_date end_date : option string)
    (limit offset : option Z) (include_inactive : option bool) (w : world),
    (∃ (rq : httpx.Request) (q : gmap string value),
       sends_exactly httpx_send
         (AuditService_query httpx_send tenant_id event_types user_id
            start_date end_date limit offset) w rq ∧
       httpx.method rq = httpx.GET ∧
       httpx.url rq = _base_url (http w) +:+ "/api/audit/logs" ∧
       httpx.params rq = (if bool_decide (q = ∅) then None else Some q) ∧
       q !! "tenant_id" = nonempty tenant_id ∧
       q !! "event_types" = nonempty event_types ∧
       q !! "user_id" = nonempty user_id ∧
       q !! "start_date" = nonempty start_date ∧
       q !! "end_date" = nonempty end_date ∧
       q !! "limit" = VInt <$> limit ∧
       q !! "offset" = VInt <$> offset ∧
       (∀ k : string,
          k ∉ [ "tenant_id"; "event_types"; "user_id"; "start_date"; "end_date";
                "limit"; "offset" ] → q !! k = None)) ∧
    (∃ rq : httpx.Request,
       sends_exactly httpx_send (FgaService_list_stores httpx_send include_inactive)
         w rq ∧
       httpx.method rq = httpx.GET ∧
       httpx.url rq = _base_url (http w) +:+ "/api/fga/stores" ∧
       httpx.params rq
         = (λ b : bool, {[ "include_inactive" := VBool b ]}) <$> include_inactive).
Proof.
  intros send tenant_id event_types user_id start_date end_date limit offset
    include_inactive w.
  split.
  - eexists. eexists. split; [apply get_sends |].
    split; [reflexivity |]. split; [reflexivity |].
    split; [apply or_None_spec |].
    split; [lookup_built; by destruct (nonempty tenant_id) |].
    split; [lookup_built; by destruct (nonempty event_types) |].
    split; [lookup_built; by destruct (nonempty user_id) |].
    split; [lookup_built; by destruct (nonempty start_date) |].
    split; [lookup_built; by destruct (nonempty end_date) |].
    split; [lookup_built; by destruct limit |].
    split; [lookup_built; by destruct offset |].
    intros k Hk.
    repeat (apply not_elem_of_cons in Hk as [? Hk]).
    rewrite !lookup_setitem_if_ne by done. apply lookup_empty.
  - eexists. split; [apply get_sends |].
    split; [reflexivity |]. split; [reflexivity |].
    simpl. rewrite or_None_spec. destruct include_inactive as [b|]; [| done].
    simpl. unfold setitem_if. simpl. rewrite insert_empty.
    case_bool_decide as He; [| done].
    by apply map_non_empty_singleton in He.
Qed.

(** ** Request bodies of the services *)

Lemma setitem_if_dict_lookup (key : string) (arg : option (gmap string value))
    (d : gmap string value) :
  d !! key = None →
  setitem_if (truthy arg) key (to_value arg) d !! key
    = match arg with
      | Some a => if bool_decide (a = ∅) then None else Some (VDict a)
      | None => None
      end.
Proof.
  intros Hd. destruct arg as [a|]; [| done].
  unfold setitem_if, truthy, option_truthy, truthy, dict_truthy.
  case_bool_decide as He.
  - subst. by rewrite map_size_empty.
  - destruct (size a) eqn:Hs; [by apply map_size_empty_iff in Hs |].
    simpl. by rewrite lookup_insert_eq.
Qed.

Lemma post_body_sends
    (httpx_send : list httpx.Request → httpx.Request → httpx.send_result)
    (path : string) (json : option value) (w : world) :
  ∃ rq : httpx.Request,
    sends_exactly httpx_send (HttpClient_post httpx_send path json) w rq ∧
    httpx.method rq = httpx.POST ∧
    httpx.url rq = _base_url (http w) +:+ path ∧
    httpx.params rq = None ∧ httpx.data rq = None ∧
    httpx.json_body rq = json.
Proof. eexists. split; [apply post_sends | done]. Qed.

Lemma setitem_if_non_empty (cond : bool) (key : string) (v : value)
    (d : gmap string value) :
  d ≠ ∅ → setitem_if cond key v d ≠ ∅.
Proof.
  intros Hd. unfold setitem_if. destruct cond; [apply insert_non_empty | done].
Qed.

(** Looks a key up in a dict display. *)
Ltac lookup_literal :=
  repeat first
    [ rewrite lookup_insert_ne by discriminate
    | rewrite lookup_singleton_ne by discriminate
    | rewrite lookup_empty ].

(** [if x: body[key] = x] for a string argument. *)
Lemma optional_string_field (key : string) (o : option string)
    (base : gmap string value) :
  base !! key = None →
  ((VStr <$> o = None ∨ VStr <$> o = Some (VStr "") ∨ VStr <$> o = Some (VDict ∅)) →
     setitem_if (truthy o) key (to_value o) base !! key = None) ∧
  (¬ (VStr <$> o = None ∨ VStr <$> o = Some (VStr "")
      ∨ VStr <$> o = Some (VDict ∅)) →
     setitem_if (truthy o) key (to_value o) base !! key = VStr <$> o).
Proof.
  intros Hb. destruct o as [[|a s]|].
  - split; [done |]. intros Hn. exfalso. apply Hn. right. by left.
  - split.
    + intros [He | [He | He]]; discriminate.
    + intros _. unfold setitem_if. simpl. by rewrite lookup_insert_eq.
  - split; [done |]. intros Hn. exfalso. apply Hn. by left.
Qed.

(** [if x: body[key] = x] for a dict argument. *)
Lemma optional_dict_field (key : string) (o : option (gmap string value))
    (base : gmap string value) :
  base !! key = None →
  ((VDict <$> o = None ∨ VDict <$> o = Some (VStr "") ∨ VDict <$> o = Some (VDict ∅)) →
     setitem_if (truthy o) key (to_value o) base !! key = None) ∧
  (¬ (VDict <$> o = None ∨ VDict <$> o = Some (VStr "")
      ∨ VDict <$> o = Some (VDict ∅)) →
     setitem_if (truthy o) key (to_value o) base !! key = VDict <$> o).
Proof.
  intros Hb. rewrite setitem_if_dict_lookup by done.
  destruct o as [a|].
  - case_bool_decide as He.
    + subst. split; [done |]. intros Hn. exfalso. apply Hn. right. by right.
    + split; [| done].
      intros [H1 | [H1 | H1]]; [discriminate | discriminate |].
      exfalso. apply He. by injection H1.
  - split; [done |]. intros Hn. exfalso. apply Hn. by left.
Qed.

(** X10: each service method that posts a body with one field set under
    [if x:] sends one POST to its path whose JSON body holds the fixed
    fields of the method with the values given, and the optional field
    exactly when its argument is given and is neither the empty string nor
    the empty dict, then with the value given; [WebhooksService.test],
    which has no fixed field, passes no body at all when the event type is
    dropped. *)
Theorem optional_body_field_iff_nonempty :
  ∀ (httpx_send : list httpx.Request → httpx.Request → httpx.send_result)
    (c : body_call) (w : world),
    ∃ (rq : httpx.Request) (body : gmap string value),
      sends_exactly httpx_send (run_body_call httpx_send c) w rq ∧
      httpx.method rq = httpx.POST ∧
      httpx.url rq = _base_url (http w) +:+ body_path c ∧
      httpx.params rq = None ∧ httpx.data rq = None ∧
      httpx.json_body rq
        = (if bool_decide (body = ∅) then None else Some (VDict body)) ∧
      (∀ k : string, k ≠ optional_key c → body !! k = required_fields c !! k) ∧
      required_fields c !! optional_key c = None ∧
      (optional_is_empty c → body !! optional_key c = None) ∧
      (¬ optional_is_empty c → body !! optional_key c = optional_arg c).
Proof.
  intros send c w.
  destruct c;
    cbn [run_body_call body_path optional_key optional_arg required_fields];
    unfold AuthService_register, AuthService_login_hierarchical,
      ScimService_create_scim_token, FgaService_create_tuple, FgaService_check,
      FgaService_create_store, FgaService_write_model, GroupsService_add_member,
      GroupsService_accept_invitation, AdminService_create_tenant,
      WebhooksService_test, optional_is_empty;
    cbn [optional_arg]; cbv zeta;
    match goal with
    | |- ∃ rq body, sends_exactly _ (HttpClient_post _ ?path ?json) _ _ ∧ _ =>
        destruct (post_body_sends send path json w)
          as (rq & Hs & Hm & Hu & Hp & Hd & Hj);
        exists rq;
        match json with
        | Some (VDict ?b) => exists b
        | VDict <$> or_None ?b => exists b
        end
    end;
    (split; [exact Hs |]; split; [exact Hm |]; split; [exact Hu |];
     split; [exact Hp |]; split; [exact Hd |]; split;
     [ rewrite Hj; first
         [ rewrite or_None_spec; by case_bool_decide
         | rewrite bool_decide_eq_false_2; [reflexivity |];
           apply setitem_if_non_empty;
           first [apply insert_non_empty | apply map_non_empty_singleton] ]
     |]);
    (split; [intros k Hk; apply lookup_setitem_if_ne; exact Hk |]);
    match goal with
    | |- ?base !! ?key = None ∧ _ =>
        assert (base !! key = None) as Hbase by (lookup_literal; reflexivity)
    end;
    (split; [exact Hbase |]);
    first [ apply optional_string_field; exact Hbase
          | apply optional_dict_field; exact Hbase ].
Qed.

Lemma optional_body_field_iff_nonempty_witness :
  ∃ (rq : httpx.Request) (body : gmap string value),
    sends_exactly (constant_server resp_200_a1)
      (FgaService_check (constant_server resp_200_a1)
         "t1" "user" "alice" "viewer" "doc" "d1" (Some ∅)) sample_world rq ∧
    httpx.json_body rq = Some (VDict body) ∧
    body !! "relation" = Some (VStr "viewer") ∧
    body !! "context" = None.
Proof.
  destruct (optional_body_field_iff_nonempty (constant_server resp_200_a1)
              (Fga_check "t1" "user" "alice" "viewer" "doc" "d1" (Some ∅))
              sample_world)
    as (rq & body & Hs & _ & _ & _ & _ & Hj & Hreq & _ & Hempty & _).
  exists rq, body. split; [exact Hs |].
  assert (body !! "relation" = Some (VStr "viewer")) as Hrel.
  { rewrite (Hreq "relation"); [reflexivity | discriminate]. }
  split; [| split; [exact Hrel |]].
  - rewrite Hj. case_bool_decide as He; [| reflexivity].
    rewrite He in Hrel. discriminate.
  - apply Hempty. right. right. reflexivity.
Defined.

(** X11: [submit_login_flow] and [submit_registration_flow] post the
    keyword arguments as JSON body, with the flow id under [flow]; the
    keyword arguments come last, so a keyword argument named [flow] is sent
    in place of the flow id. *)
Theorem submit_flow_body :
  ∀ (httpx_send : list httpx.Request → httpx.Request → httpx.send_result)
    (flow_id : string) (kwargs : gmap string value) (w : world)
    (m : M value) (path : string),
    (m, path) ∈
      [ (AuthService_submit_login_flow httpx_send flow_id kwargs,
         "/self-service/login");
        (AuthService_submit_registration_flow httpx_send flow_id kwargs,
         "/self-service/registration") ] →
    ∃ (rq : httpx.Request) (body : gmap string value),
      sends_exactly httpx_send m w rq ∧
      httpx.method rq = httpx.POST ∧
      httpx.url rq = _base_url (http w) +:+ path ∧
      httpx.json_body rq = Some (VDict body) ∧
      dom body = dom kwargs ∪ {[ "flow" ]} ∧
      (∀ (k : string) (v : value), kwargs !! k = Some v → body !! k = Some v) ∧
      (kwargs !! "flow" = None → body !! "flow" = Some (VStr flow_id)).
Proof.
  intros send flow_id kwargs w m path Hin.
  assert (∃ rq, sends_exactly send m w rq ∧
                httpx.method rq = httpx.POST ∧
                httpx.url rq = _base_url (http w) +:+ path ∧
                httpx.json_body rq
                  = Some (VDict (kwargs ∪ {[ "flow" := VStr flow_id ]}))) as Hrq.
  { apply elem_of_cons in Hin as [[= -> ->] | Hin];
      [eexists; split; [apply post_sends | done] |].
    apply elem_of_cons in Hin as [[= -> ->] | Hin];
      [eexists; split; [apply post_sends | done] |].
    by apply elem_of_nil in Hin. }
  destruct Hrq as (rq & Hs & Hm & Hu & Hj).
  exists rq, (kwargs ∪ {[ "flow" := VStr flow_id ]}).
  split; [exact Hs |]. split; [exact Hm |]. split; [exact Hu |].
  split; [exact Hj |]. split; [| split].
  - by rewrite dom_union_L, dom_singleton_L.
  - intros k v Hk. by apply lookup_union_Some_l.
  - intros Hk. rewrite lookup_union_r by done. by rewrite lookup_singleton_eq.
Qed.

Lemma submit_flow_body_witness :
  ∃ (rq : httpx.Request) (body : gmap string value),
    sends_exactly (constant_server resp_200_a1)
      (AuthService_submit_login_flow (constant_server resp_200_a1) "f1"
         {[ "flow" := VStr "other"; "method" := VStr "password" ]})
      sample_world rq ∧
    httpx.json_body rq = Some (VDict body) ∧
    body !! "flow" = Some (VStr "other").
Proof.
  destruct (submit_flow_body (constant_server resp_200_a1) "f1"
              {[ "flow" := VStr "other"; "method" := VStr "password" ]}
              sample_world
              (AuthService_submit_login_flow (constant_server resp_200_a1) "f1"
                 {[ "flow" := VStr "other"; "method" := VStr "password" ]})
              "/self-service/login")
    as (rq & body & Hs & _ & _ & Hj & _ & Hkw & _).
  - apply list_elem_of_here.
  - exists rq, body. split; [exact Hs |]. split; [exact Hj |].
    apply Hkw. reflexivity.
Defined.

(** ** The session methods and the credential *)

Lemma handle_response_2xx_value (resp : httpx.Response) :
  is_2xx (httpx.status_code resp) →
  httpx.json resp ≠ None ∨ httpx.content resp = [] →
  ∃ v : value, _handle_response resp = Ok v.
Proof.
  intros H2 Hbody. unfold _handle_response. cbv zeta.
  destruct (httpx.status_code resp =? 204)%Z; [by eexists |].
  rewrite (status_2xx_test _ H2).
  destruct (httpx.content resp) as [|b bs] eqn:Hc; [by eexists |].
  simpl. unfold resp_json.
  destruct (httpx.json resp) as [v|]; [by eexists |].
  by destruct Hbody.
Qed.

Lemma auth_call_sends
    (httpx_send : list httpx.Request → httpx.Request → httpx.send_result)
    (c : auth_call) (w : world) :
  ∃ rq : httpx.Request,
    after (run_auth_call httpx_send c) w
      = {| http := http w; wire := wire w ++ [rq] |} ∧
    outcome (run_auth_call httpx_send c) w
      = match httpx_send (wire w) rq with
        | httpx.Responded resp =>
            match c, _handle_response resp with
            | AuthLogout, Ok _ => Ok VNone
            | _, r => r
            end
        | httpx.HTTPError reason =>
            Raise (ExnCoreAuthError ("Request failed: " +:+ reason))
        end ∧
    (c = AuthLogout → httpx.method rq = httpx.POST ∧ httpx.json_body rq = None).
Proof.
  destruct c; cbn [run_auth_call].
  - eexists. destruct (post_sends httpx_send "/api/auth/login"
      (Some (VDict {[ "tenant_id" := VStr tenant_id; "email" := VStr email;
                      "password" := VStr password ]})) w) as [Ha Ho].
    split; [exact Ha |]. split; [| discriminate].
    unfold AuthService_login. rewrite Ho.
    destruct (httpx_send (wire w) _) as [resp | reason]; [| done].
    by destruct (_handle_response resp).
  - eexists. unfold AuthService_register. cbv zeta.
    destruct (post_sends httpx_send "/api/auth/register"
      (Some (VDict (setitem_if (truthy phone) "phone" (to_value phone)
                      {[ "tenant_id" := VStr tenant_id; "email" := VStr email;
                         "password" := VStr password ]}))) w) as [Ha Ho].
    split; [exact Ha |]. split; [| discriminate].
    rewrite Ho.
    destruct (httpx_send (wire w) _) as [resp | reason]; [| done].
    by destruct (_handle_response resp).
  - eexists. unfold AuthService_login_hierarchical. cbv zeta.
    destruct (post_sends httpx_send "/api/auth/login-hierarchical"
      (Some (VDict (setitem_if (truthy organization_slug) "organization_slug"
                      (to_value organization_slug)
                      {[ "email" := VStr email; "password" := VStr password ]})))
      w) as [Ha Ho].
    split; [exact Ha |]. split; [| discriminate].
    rewrite Ho.
    destruct (httpx_send (wire w) _) as [resp | reason]; [| done].
    by destruct (_handle_response resp).
  - eexists. unfold AuthService_refresh_token.
    destruct (post_sends httpx_send "/api/auth/refresh"
      (Some (VDict {[ "refresh_token" := VStr refresh_token ]})) w) as [Ha Ho].
    split; [exact Ha |]. split; [| discriminate].
    rewrite Ho.
    destruct (httpx_send (wire w) _) as [resp | reason]; [| done].
    by destruct (_handle_response resp).
  - destruct (post_sends httpx_send "/api/auth/logout" None w) as [Ha Ho].
    eexists. unfold AuthService_logout, after, outcome, mbind, M_bind in *.
    destruct (HttpClient_post httpx_send "/api/auth/logout" None w) as [r w1].
    simpl in Ha, Ho. subst w1.
    split; [by destruct r |]. split; [| done].
    rewrite Ho.
    destruct (httpx_send (wire w) _) as [resp | reason]; [| done].
    by destruct (_handle_response resp).
  - eexists. unfold AuthService_get_profile.
    destruct (get_sends httpx_send "/api/auth/me" None w) as [Ha Ho].
    split; [exact Ha |]. split; [| discriminate].
    rewrite Ho.
    destruct (httpx_send (wire w) _) as [resp | reason]; [| done].
    by destruct (_handle_response resp).
Qed.

(** X12: [login], [register], [login_hierarchical], [refresh_token],
    [logout] and [get_profile] each hand one request to httpx and never
    touch the credential: base address and token are afterwards what they
    were, whatever the server answered, so the next request carries the
    same [Authorization] header as before the call.  [logout] posts
    without a body, returns [None] and nothing else, and does so for every
    2xx answer whose body is empty or decodes. *)
Theorem session_calls_keep_credential :
  ∀ (httpx_send : list httpx.Request → httpx.Request → httpx.send_result)
    (c : auth_call) (next : transport_call) (w : world),
    ∃ rq : httpx.Request,
      after (run_auth_call httpx_send c) w
        = {| http := http w; wire := wire w ++ [rq] |} ∧
      authorization <$> sent (run_transport_call httpx_send next)
                          (after (run_auth_call httpx_send c) w)
        = authorization <$> sent (run_transport_call httpx_send next) w ∧
      (c = AuthLogout →
         httpx.method rq = httpx.POST ∧ httpx.json_body rq = None ∧
         (∀ v : value, outcome (run_auth_call httpx_send c) w = Ok v → v = VNone) ∧
         (∀ resp : httpx.Response,
            httpx_send (wire w) rq = httpx.Responded resp →
            is_2xx (httpx.status_code resp) →
            httpx.json resp ≠ None ∨ httpx.content resp = [] →
            outcome (run_auth_call httpx_send c) w = Ok VNone)).
Proof.
  intros send c next w.
  destruct (auth_call_sends send c w) as (rq & Ha & Ho & Hlogout).
  exists rq. split; [exact Ha |]. split.
  { destruct (transport_call_sends send next w) as (r1 & Hs1 & Ha1).
    destruct (transport_call_sends send next (after (run_auth_call send c) w))
      as (r2 & Hs2 & Ha2).
    rewrite (sends_exactly_sent send _ _ _ Hs1), (sends_exactly_sent send _ _ _ Hs2).
    simpl. rewrite Ha1, Ha2. by rewrite Ha. }
  intros ->. destruct (Hlogout eq_refl) as [Hm Hj].
  split; [exact Hm |]. split; [exact Hj |]. split.
  - intros v. rewrite Ho.
    destruct (send (wire w) rq) as [resp | reason]; [| done].
    destruct (_handle_response resp); [| done]. by intros [= <-].
  - intros resp Hresp H2 Hbody. rewrite Ho, Hresp.
    by destruct (handle_response_2xx_value resp H2 Hbody) as [v ->].
Qed.

Lemma session_calls_keep_credential_witness :
  ∃ rq : httpx.Request,
    after (run_auth_call (constant_server resp_200_a1) AuthLogout)
          (new_world "http://localhost:3000" (Some "tok-1"))
      = {| http := HttpClient.__init__ "http://localhost:3000" (Some "tok-1");
           wire := [rq] |} ∧
    httpx.json_body rq = None ∧
    outcome (run_auth_call (constant_server resp_200_a1) AuthLogout)
            (new_world "http://localhost:3000" (Some "tok-1"))
      = Ok VNone.
Proof.
  destruct (session_calls_keep_credential (constant_server resp_200_a1)
              AuthLogout (CallGet "/api/auth/me" None)
              (new_world "http://localhost:3000" (Some "tok-1")))
    as (rq & Ha & _ & Hlogout).
  destruct (Hlogout eq_refl) as (_ & Hj & _ & Hok).
  exists rq. split; [exact Ha |]. split; [exact Hj |].
  apply (Hok resp_200_a1).
  - reflexivity.
  - unfold is_2xx. simpl. lia.
  - left. discriminate.
Defined.

(** ** OAuth2 *)

Lemma rstrip_slash_idempotent (s : string) :
  rstrip_slash (rstrip_slash s) = rstrip_slash s.
Proof. apply rstrip_slash_id, rstrip_slash_no_trailing. Qed.

(** X13: on a client built by [CoreAuthClient(base_url, token)], after any
    [set_token] and [clear_token] calls, [OAuth2Service.authorize] returns
    the address given with its trailing slashes removed, followed by
    /authorize? and the encoded query; it sends no request and leaves the
    client as it was.  The query holds the client id and redirect URI
    given, the response type and scope given or ["code"] and ["openid"],
    and every extra keyword argument unchanged.  Python binds keywords
    named like the four parameters to them, so the extra arguments hold
    none of these keys. *)
Theorem authorize_builds_url :
  ∀ (urlencode : gmap string value → string)
    (base_url : string) (token : option string) (ops : list token_op)
    (client_id redirect_uri : string) (response_type scope : option string)
    (params : gmap string value),
    params !! "client_id" = None →
    params !! "redirect_uri" = None →
    params !! "response_type" = None →
    params !! "scope" = None →
    ∃ query : gmap string value,
      outcome (OAuth2Service_authorize urlencode client_id redirect_uri
                 response_type scope params)
              (after (run_token_ops ops) (new_world base_url token))
        = Ok (rstrip_slash base_url +:+ "/authorize?" +:+ urlencode query) ∧
      after (OAuth2Service_authorize urlencode client_id redirect_uri
               response_type scope params)
            (after (run_token_ops ops) (new_world base_url token))
        = after (run_token_ops ops) (new_world base_url token) ∧
      query !! "client_id" = Some (VStr client_id) ∧
      query !! "redirect_uri" = Some (VStr redirect_uri) ∧
      query !! "response_type" = Some (VStr (default "code" response_type)) ∧
      query !! "scope" = Some (VStr (default "openid" scope)) ∧
      (∀ k : string,
         k ∉ [ "client_id"; "redirect_uri"; "response_type"; "scope" ] →
         query !! k = params !! k).
Proof.
  intros urlencode base_url token ops client_id redirect_uri response_type scope
    params H1 H2 H3 H4.
  exists (OAuth2Service_authorize_query client_id redirect_uri response_type
            scope params).
  destruct (run_token_ops_world ops (new_world base_url token)) as (_ & _ & Hb & _).
  split.
  { unfold outcome, OAuth2Service_authorize, mbind, M_bind, get_http, mret, M_ret.
    cbn [fst]. rewrite Hb. cbn [new_world http HttpClient.__init__ _base_url].
    by rewrite rstrip_slash_idempotent. }
  split; [reflexivity |].
  unfold OAuth2Service_authorize_query.
  split; [rewrite lookup_union_r by done; by rewrite lookup_insert_eq |].
  split; [rewrite lookup_union_r by done; rewrite lookup_insert_ne by discriminate;
          by rewrite lookup_insert_eq |].
  split; [rewrite lookup_union_r by done; rewrite !lookup_insert_ne by discriminate;
          by rewrite lookup_insert_eq |].
  split; [rewrite lookup_union_r by done; rewrite !lookup_insert_ne by discriminate;
          by rewrite lookup_singleton_eq |].
  intros k Hk. repeat (apply not_elem_of_cons in Hk as [? Hk]).
  rewrite lookup_union_l; [done |].
  rewrite !lookup_insert_ne by done. by rewrite lookup_singleton_ne.
Qed.

Lemma authorize_builds_url_witness :
  ∃ query : gmap string value,
    outcome (OAuth2Service_authorize (λ _, "q") "app" "https://app.example/cb"
               None None {[ "state" := VStr "s1" ]})
            (after (run_token_ops [OpSetToken "tok-1"])
                   (new_world "http://localhost:3000//" None))
      = Ok ("http://localhost:3000" +:+ "/authorize?" +:+ (λ _, "q") query) ∧
    query !! "response_type" = Some (VStr "code") ∧
    query !! "state" = Some (VStr "s1").
Proof.
  destruct (authorize_builds_url (λ _, "q") "http://localhost:3000//" None
              [OpSetToken "tok-1"] "app" "https://app.example/cb" None None
              {[ "state" := VStr "s1" ]})
    as (query & Ho & _ & _ & _ & Hrt & _ & Hrest).
  - reflexivity.
  - reflexivity.
  - reflexivity.
  - reflexivity.
  - exists query. split; [exact Ho |]. split; [exact Hrt |].
    rewrite (Hrest "state"); [reflexivity |].
    repeat (apply not_elem_of_cons; split; [discriminate |]).
    apply not_elem_of_nil.
Defined.

Lemma post_form_sends
    (httpx_send : list httpx.Request → httpx.Request → httpx.send_result)
    (path : string) (data : gmap string value) (w : world) :
  ∃ rq : httpx.Request,
    sends_exactly httpx_send (HttpClient_post_form httpx_send path data) w rq ∧
    httpx.method rq = httpx.POST ∧
    httpx.url rq = _base_url (http w) +:+ path ∧
    httpx.data rq = Some data ∧
    httpx.json_body rq = None ∧
    httpx.headers rq !! "Content-Type" = Some "application/x-www-form-urlencoded".
Proof.
  eexists. split; [apply send_then_handle |].
  split; [reflexivity |]. split; [reflexivity |].
  split; [reflexivity |]. split; [reflexivity |].
  apply with_authorization_dom.
Qed.

(** X14: [OAuth2Service.token], [revoke] and [introspect] each send one
    form-encoded POST without JSON body.  The form of [token] holds the
    grant type under [grant_type] and every keyword argument unchanged;
    the forms of [revoke] and [introspect] hold the token under [token],
    [token_type_hint] exactly when it is a non-empty string, and nothing
    else.  Python binds a keyword named [grant_type] to the parameter, so
    the keyword arguments of [token] do not hold it. *)
Theorem oauth2_form_calls :
  ∀ (httpx_send : list httpx.Request → httpx.Request → httpx.send_result)
    (grant_type : string) (kwargs : gmap string value)
    (token : string) (token_type_hint : option string) (w : world),
    kwargs !! "grant_type" = None →
    (∃ (rq : httpx.Request) (data : gmap string value),
       sends_exactly httpx_send (OAuth2Service_token httpx_send grant_type kwargs)
         w rq ∧
       httpx.method rq = httpx.POST ∧
       httpx.url rq = _base_url (http w) +:+ "/oauth/token" ∧
       httpx.data rq = Some data ∧
       httpx.json_body rq = None ∧
       httpx.headers rq !! "Content-Type"
         = Some "application/x-www-form-urlencoded" ∧
       data !! "grant_type" = Some (VStr grant_type) ∧
       (∀ k : string, k ≠ "grant_type" → data !! k = kwargs !! k)) ∧
    (∀ (m : M value) (path : string),
       (m, path) ∈
         [ (OAuth2Service_revoke httpx_send token token_type_hint, "/oauth/revoke");
           (OAuth2Service_introspect httpx_send token token_type_hint,
            "/oauth/introspect") ] →
       ∃ (rq : httpx.Request) (data : gmap string value),
         sends_exactly httpx_send m w rq ∧
         httpx.method rq = httpx.POST ∧
         httpx.url rq = _base_url (http w) +:+ path ∧
         httpx.data rq = Some data ∧
         httpx.json_body rq = None ∧
         httpx.headers rq !! "Content-Type"
           = Some "application/x-www-form-urlencoded" ∧
         data !! "token" = Some (VStr token) ∧
         data !! "token_type_hint" = nonempty token_type_hint ∧
         (∀ k : string, k ≠ "token" → k ≠ "token_type_hint" → data !! k = None)).
Proof.
  intros send grant_type kwargs token token_type_hint w Hk. split.
  - destruct (post_form_sends send "/oauth/token"
                (kwargs ∪ {[ "grant_type" := VStr grant_type ]}) w)
      as (rq & Hs & Hm & Hu & Hd & Hj & Hct).
    exists rq, (kwargs ∪ {[ "grant_type" := VStr grant_type ]}).
    split; [exact Hs |]. split; [exact Hm |]. split; [exact Hu |].
    split; [exact Hd |]. split; [exact Hj |]. split; [exact Hct |]. split.
    + rewrite lookup_union_r by done. by rewrite lookup_singleton_eq.
    + intros k Hne. destruct (kwargs !! k) as [v|] eqn:Hv.
      * by apply lookup_union_Some_l.
      * rewrite lookup_union_r by done. by rewrite lookup_singleton_ne.
  - intros m path Hin.
    assert (∃ rq,
              sends_exactly send m w rq ∧
              httpx.method rq = httpx.POST ∧
              httpx.url rq = _base_url (http w) +:+ path ∧
              httpx.data rq
                = Some (setitem_if (truthy token_type_hint) "token_type_hint"
                          (to_value token_type_hint) {[ "token" := VStr token ]}) ∧
              httpx.json_body rq = None ∧
              httpx.headers rq !! "Content-Type"
                = Some "application/x-www-form-urlencoded") as Hrq.
    { apply elem_of_cons in Hin as [[= -> ->] | Hin]; [apply post_form_sends |].
      apply elem_of_cons in Hin as [[= -> ->] | Hin]; [apply post_form_sends |].
      by apply elem_of_nil in Hin. }
    destruct Hrq as (rq & Hs & Hm & Hu & Hd & Hj & Hct).
    exists rq. eexists.
    split; [exact Hs |]. split; [exact Hm |]. split; [exact Hu |].
    split; [exact Hd |]. split; [exact Hj |]. split; [exact Hct |].
    split; [| split].
    + rewrite lookup_setitem_if_ne by discriminate. by rewrite lookup_singleton_eq.
    + rewrite setitem_if_truthy_lookup.
      rewrite lookup_singleton_ne by discriminate.
      by destruct (nonempty token_type_hint).
    + intros k H1 H2. rewrite lookup_setitem_if_ne by done.
      by rewrite lookup_singleton_ne.
Qed.

Lemma oauth2_form_calls_witness :
  ∃ (rq : httpx.Request) (data : gmap string value),
    sends_exactly (constant_server resp_200_a1)
      (OAuth2Service_token (constant_server resp_200_a1) "authorization_code"
         {[ "code" := VStr "c1" ]}) sample_world rq ∧
    httpx.data rq = Some data ∧
    data !! "grant_type" = Some (VStr "authorization_code") ∧
    data !! "code" = Some (VStr "c1").
Proof.
  destruct (oauth2_form_calls (constant_server resp_200_a1) "authorization_code"
              {[ "code" := VStr "c1" ]} "tok" None sample_world)
    as [(rq & data & Hs & _ & _ & Hd & _ & _ & Hg & Hrest) _].
  - reflexivity.
  - exists rq, data. split; [exact Hs |]. split; [exact Hd |].
    split; [exact Hg |]. rewrite (Hrest "code"); [reflexivity | discriminate].
Defined.
